(** * MusicKit type declarations: an embedding of the declaration files

    The repository [coredev-uk/musickit-types] consists of TypeScript
    declaration files ([*.d.ts]).  Each file is a list of
    [/// <reference path=... />] directives and [declare namespace MusicKit]
    blocks; each block is a list of interface, type alias, enum, constant,
    function and class declarations.  The declarations are transcribed below,
    one Rocq definition per source declaration and under the source's name,
    as values of a small syntax of TypeScript declarations.  On top of that
    syntax come the parts of TypeScript's static semantics the properties
    need: namespace merging and name resolution, interface flattening along
    [extends], [keyof], indexed access and mapped types, the values of enum
    members, and assignability on literal, primitive, union and named types. *)

From Stdlib Require Import String ZArith List Bool Lia Relations.
Import ListNotations.
Open Scope string_scope.
Open Scope list_scope.

Set Warnings "-register-all".

(** ** Syntax *)

(** Expressions and statements: what an initialiser or a function body
    holds when a declaration has one. *)
Inductive expr : Type :=
| ENum (n : Z)
| EStr (s : string)
| EIdent (x : string)
| EMember (e : expr) (field : string)
| ECall (f : expr) (args : list expr)
| ENew (c : expr) (args : list expr)
| EAssign (lhs rhs : expr).

Inductive stmt : Type :=
| SExpr (e : expr)
| SReturn (e : option expr)
| SThrow (e : expr)
| SIf (c : expr) (th el : list stmt)
| STry (body handler : list stmt).

(** Types as they are written in the source.  A union or an intersection
    keeps its operands in source order; [TRef] keeps a qualified name such as
    [MusicKit.Songs] as written. *)
Inductive ty : Type :=
| TString | TNumber | TBoolean | TAny | TUnknown | TVoid | TUndefined | TNull
| TStrLit (s : string)
| TNumLit (n : Z)
| TRef (name : string) (args : list ty)
| TArray (elem : ty)
| TTuple (elems : list ty)
| TUnion (alts : list ty)
| TInter (parts : list ty)
| TObj (members : list member)
| TFun (params : list param) (ret : ty)
| TIndexed (obj : ty) (index : ty)
| TKeyof (t : ty)
| TMapped (key : string) (dom : ty) (optional : bool) (body : ty)
with member : Type :=
| MProp (readonly : bool) (name : string) (optional : bool) (t : ty)
| MMethod (name : string) (tparams : list tparam) (params : list param) (ret : ty)
| MIndex (key : string) (kt : ty) (t : ty)
with param : Type :=
| Param (name : string) (optional : bool) (t : ty)
with tparam : Type :=
| TParam (name : string) (constraint : option ty) (default : option ty).

(** [name: t], [name?: t], [readonly name: t], [readonly name?: t]. *)
Abbreviation prop n t := (MProp false n false t).
Abbreviation prop_opt n t := (MProp false n true t).
Abbreviation ro_prop n t := (MProp true n false t).
Abbreviation ro_prop_opt n t := (MProp true n true t).
(** A type name without type arguments. *)
Abbreviation Named n := (TRef n []).

Inductive class_member : Type :=
| CProp (static : bool) (name : string) (optional : bool) (t : ty) (init : option expr)
| CMethod (static : bool) (name : string) (params : list param) (ret : ty)
    (body : option (list stmt)).

(** [const], [let] or [var]. *)
Inductive binding : Type := Const | Let | Var.

Inductive decl : Type :=
| DInterface (name : string) (tparams : list tparam) (extends : list ty)
    (members : list member)
| DAlias (name : string) (tparams : list tparam) (t : ty)
| DEnum (name : string) (members : list (string * option expr))
| DVar (k : binding) (name : string) (t : ty) (init : option expr)
| DFunction (name : string) (tparams : list tparam) (params : list param) (ret : ty)
    (body : option (list stmt))
| DClass (name : string) (extends : option ty) (members : list class_member).

(** A top-level item of a file.  [INamespace true] is [declare namespace]. *)
Inductive item : Type :=
| IReference (path : string)
| INamespace (ambient : bool) (name : string) (decls : list decl)
| IStatement (s : stmt).

Record file : Type := { f_path : string; f_items : list item }.

(** ** The declarations of the repository *)

Module MusicKit.

(** * [src/types/index.d.ts] *)

Definition index_d_ts : file :=
  {| f_path := "src/types/index.d.ts";
     f_items :=
       [IReference "MusicKit.d.ts";
        IReference "MusicKit.API.d.ts";
        IReference "MusicKit.Events.d.ts";
        IReference "MusicKit.MediaItem.d.ts";
        IReference "MusicKit.MKError.d.ts";
        IReference "MusicKit.MusicKitInstance.d.ts";
        IReference "MusicKit.Player.d.ts";
        IReference "MusicKit.Queue.d.ts";
        IReference "MusicKit.SetQueueOptions.d.ts"] |}.

(** * [src/types/MusicKit.d.ts] *)

(** [interface AppConfiguration], src/types/MusicKit.d.ts:17 *)
Definition AppConfiguration : decl :=
  DInterface "AppConfiguration" [] []
    [prop_opt "build" (TUnion [TString; TUndefined]);
     prop_opt "icon" (TUnion [TString; TUndefined]);
     prop_opt "name" (TUnion [TString; TUndefined]);
     prop_opt "version" (TUnion [TString; TUndefined])].

(** [interface FormattedPlaybackDuration], src/types/MusicKit.d.ts:41 *)
Definition FormattedPlaybackDuration : decl :=
  DInterface "FormattedPlaybackDuration" [] []
    [prop "hours" TNumber;
     prop "minutes" TNumber].

(** [interface EmbedOptions], src/types/MusicKit.d.ts:53 *)
Definition EmbedOptions : decl :=
  DInterface "EmbedOptions" [] []
    [prop "height" (TUnion [TNumber; TString]);
     prop "width" (TUnion [TNumber; TString])].

(** [const errors], src/types/MusicKit.d.ts:63 *)
Definition errors : decl :=
  DVar Const "errors" (TArray (Named "MKError")) None.

(** [const version], src/types/MusicKit.d.ts:68 *)
Definition version : decl :=
  DVar Const "version" TString None.

(** [const __log], src/types/MusicKit.d.ts:74 *)
Definition __log : decl :=
  DVar Const "__log" (Named "Logger") None.

(** [enum AuthStatus], src/types/MusicKit.d.ts:82 *)
Definition AuthStatus : decl :=
  DEnum "AuthStatus"
    [("NOT_DETERMINED", Some (ENum 0));
     ("DENIED", Some (ENum 1));
     ("RESTRICTED", Some (ENum 2));
     ("AUTHORIZED", Some (ENum 3))].

(** [interface Logger], src/types/MusicKit.d.ts:101 *)
Definition Logger : decl :=
  DInterface "Logger" [] []
    [MMethod "clearLoggingLevels" [] [] TVoid;
     MMethod "getLogger" [] [] TUnknown;
     MMethod "setLoggingLevels"
       []
       [Param "level" false
          (TUnion
             [TStrLit "TRACE"; TStrLit "DEBUG"; TStrLit "INFO"; TStrLit "WARN"; TStrLit "ERROR"]);
        Param "show" false TBoolean]
       TVoid].

(** [interface Configuration], src/types/MusicKit.d.ts:120 *)
Definition Configuration : decl :=
  DInterface "Configuration" [] []
    [prop_opt "app" (TUnion [Named "AppConfiguration"; TUndefined]);
     prop_opt "declarativeMarkup" (TUnion [TBoolean; TUndefined]);
     prop_opt "developerToken" (TUnion [TString; TUndefined]);
     prop_opt "storefrontId" (TUnion [TString; TUndefined]);
     prop_opt "bitrate" (TUnion [Named "PlaybackBitrate"; TUndefined]);
     prop_opt "sourceType" (TUnion [TNumber; TUndefined]);
     prop_opt "suppressErrorDialog" (TUnion [TBoolean; TUndefined])].

(** [function configure], src/types/MusicKit.d.ts:176 *)
Definition configure : decl :=
  DFunction "configure" []
    [Param "configuration" false (Named "Configuration")]
    (TRef "Promise" [Named "MusicKitInstance"]) None.

(** [function getInstance], src/types/MusicKit.d.ts:186 *)
Definition getInstance : decl :=
  DFunction "getInstance" []
    []
    (Named "MusicKitInstance") None.

(** [function formatArtworkURL], src/types/MusicKit.d.ts:199 *)
Definition formatArtworkURL : decl :=
  DFunction "formatArtworkURL" []
    [Param "artwork" false (Named "Artwork");
     Param "height" true TNumber;
     Param "width" true TNumber]
    TString None.

(** [function formattedMilliseconds], src/types/MusicKit.d.ts:210 *)
Definition formattedMilliseconds : decl :=
  DFunction "formattedMilliseconds" []
    [Param "milliseconds" false TNumber]
    (Named "FormattedPlaybackDuration") None.

(** [function formattedSeconds], src/types/MusicKit.d.ts:220 *)
Definition formattedSeconds : decl :=
  DFunction "formattedSeconds" []
    [Param "seconds" false TNumber]
    (Named "FormattedPlaybackDuration") None.

(** [function generateEmbedCode], src/types/MusicKit.d.ts:232 *)
Definition generateEmbedCode : decl :=
  DFunction "generateEmbedCode" []
    [Param "url" false TString; Param "options" false (Named "EmbedOptions")]
    TString None.

(** [function formatMediaTime], src/types/MusicKit.d.ts:244 *)
Definition formatMediaTime : decl :=
  DFunction "formatMediaTime" []
    [Param "seconds" false TNumber; Param "separator" true TString]
    TString None.

Definition MusicKit_d_ts : file :=
  {| f_path := "src/types/MusicKit.d.ts";
     f_items :=
       [IReference "MusicKit.Player.d.ts";
        INamespace true "MusicKit"
          [AppConfiguration;
           FormattedPlaybackDuration;
           EmbedOptions;
           errors;
           version;
           __log;
           AuthStatus;
           Logger;
           Configuration;
           configure;
           getInstance;
           formatArtworkURL;
           formattedMilliseconds;
           formattedSeconds;
           generateEmbedCode;
           formatMediaTime]] |}.

(** * [src/types/MusicKit.API.d.ts] *)

(** [type MusicItemID], src/types/MusicKit.API.d.ts:8 *)
Definition MusicItemID : decl :=
  DAlias "MusicItemID" []
    TString.

(** [type ContentRating], src/types/MusicKit.API.d.ts:15 *)
Definition ContentRating : decl :=
  DAlias "ContentRating" []
    (TUnion [TStrLit "clean"; TStrLit "explicit"]).

(** [interface BaseResource], src/types/MusicKit.API.d.ts:20 *)
Definition BaseResource : decl :=
  DInterface "BaseResource" [] []
    [prop "id" TString;
     prop "type" TString;
     prop "href" TString;
     prop "attributes" (TRef "Record" [TString; TAny]);
     prop_opt "relationships"
       (TRef "Record"
          [TString;
           TUnion
             [TRef "Relationship" [Named "Resource"];
              TRef "Array" [TRef "Relationship" [Named "Resource"]]]]);
     prop_opt "meta" (TRef "Record" [TString; TAny]);
     prop_opt "views"
       (TRef "Record"
          [TString;
           TUnion [TRef "View" [Named "Resource"]; TRef "Relationship" [Named "Resource"]]])].

(** [interface BaseMediaResource], src/types/MusicKit.API.d.ts:33 *)
Definition BaseMediaResource : decl :=
  DInterface "BaseMediaResource" [] [Named "BaseResource"]
    [prop "attributes"
       (TObj
          [prop "name" TString;
           prop "artistName" TString;
           prop "artwork" (Named "Artwork");
           prop "genreNames" (TArray TString);
           prop_opt "contentRating" (Named "ContentRating");
           prop "url" TString;
           prop_opt "personalRating" TNumber;
           prop_opt "inLibrary" TBoolean;
           prop_opt "inFavorites" TBoolean])].

(** [interface BaseLibraryResource], src/types/MusicKit.API.d.ts:50 *)
Definition BaseLibraryResource : decl :=
  DInterface "BaseLibraryResource" [] [Named "BaseResource"]
    [prop "attributes"
       (TObj
          [prop_opt "dateAdded" TString;
           prop_opt "personalRating" TNumber;
           prop_opt "inFavorites" TBoolean])].

(** [interface ResourceMap], src/types/MusicKit.API.d.ts:61 *)
Definition ResourceMap : decl :=
  DInterface "ResourceMap" [] []
    [prop_opt "songs" (Named "MusicKit.Songs");
     prop_opt "albums" (Named "MusicKit.Albums");
     prop_opt "artists" (Named "MusicKit.Artists");
     prop_opt "playlists" (Named "MusicKit.Playlists");
     prop_opt "storefronts" (Named "MusicKit.Storefronts");
     prop_opt "library-playlist-folders" (Named "MusicKit.LibraryPlaylists");
     prop_opt "library-playlists" (Named "MusicKit.LibraryPlaylists");
     prop_opt "library-songs" (Named "MusicKit.LibrarySongs");
     prop_opt "library-albums" (Named "MusicKit.LibraryAlbums");
     prop_opt "library-artists" (Named "MusicKit.Artists");
     prop_opt "curator" (Named "MusicKit.Curators");
     prop_opt "social-profiles" (Named "MusicKit.SocialProfile");
     prop_opt "apple-curators" (Named "MusicKit.AppleCurators");
     prop_opt "credit-artists" (Named "MusicKit.CreditArtist");
     prop_opt "lyrics" (Named "MusicKit.Lyrics");
     prop_opt "credits" (Named "MusicKit.Credit");
     prop_opt "catalog" (TRef "Relationship" [Named "Playlists"]);
     prop "personal-recommendation" (Named "MusicKit.PersonalRecommendation");
     prop "stations" (Named "MusicKit.Stations");
     prop "music-summaries" (Named "MusicKit.ReplaySummary");
     prop "music-summaries-milestones" (Named "MusicKit.ReplayMilestone");
     prop "editorial-items" (Named "MusicKit.EditorialItem")].

(** [type Relationships], src/types/MusicKit.API.d.ts:89 *)
Definition Relationships : decl :=
  DAlias "Relationships" []
    (TMapped "K"
       (TKeyof (Named "MusicKit.ResourceMap"))
       true
       (TRef "Relationship" [TIndexed (Named "MusicKit.ResourceMap") (Named "K")])).

(** [interface Relationship], src/types/MusicKit.API.d.ts:97 *)
Definition Relationship : decl :=
  DInterface "Relationship" [TParam "Data" None None] []
    [prop_opt "href" TString;
     prop_opt "next" TString;
     prop "data" (TArray (Named "Data"));
     prop_opt "meta" (TRef "Record" [TString; TAny])].

(** [interface View], src/types/MusicKit.API.d.ts:108 *)
Definition View : decl :=
  DInterface "View" [TParam "Data" None None] []
    [prop_opt "href" TString;
     prop_opt "next" TString;
     prop "attributes" (TObj [prop "title" TString]);
     prop "data" (TArray (Named "Data"));
     prop_opt "meta" (TRef "Record" [TString; TAny])].

(** [interface Resource], src/types/MusicKit.API.d.ts:122 *)
Definition Resource : decl :=
  DInterface "Resource" [] [Named "BaseResource"]
    [].

(** [interface Storefronts], src/types/MusicKit.API.d.ts:128 *)
Definition Storefronts : decl :=
  DInterface "Storefronts" [] [Named "Resource"]
    [prop "type" (TStrLit "storefronts");
     prop "attributes"
       (TObj
          [prop "defaultLanguageTag" TString;
           prop "explicitContentPolicy"
             (TUnion [TStrLit "allowed"; TStrLit "opt-in"; TStrLit "prohibited"]);
           prop "name" TString;
           prop "supportedLanguageTags" (TArray TString)])].

(** [interface Genres], src/types/MusicKit.API.d.ts:142 *)
Definition Genres : decl :=
  DInterface "Genres" [] [Named "Resource"]
    [prop "type" (TStrLit "genres");
     prop "attributes"
       (TObj [prop "name" TString; prop_opt "parentId" TString; prop_opt "parentName" TString])].

(** [interface Songs], src/types/MusicKit.API.d.ts:155 *)
Definition Songs : decl :=
  DInterface "Songs" [] [Named "Resource"]
    [prop "id" (Named "MusicItemID");
     prop "type" (TStrLit "songs");
     prop "attributes"
       (TObj
          [prop "albumName" TString;
           prop "artistName" TString;
           prop "artwork" (Named "Artwork");
           prop_opt "attribution" TString;
           prop_opt "composerName" TString;
           prop_opt "contentRating" (Named "ContentRating");
           prop_opt "discNumber" TNumber;
           prop "durationInMillis" TNumber;
           prop_opt "editorialNotes" (Named "EditorialNotes");
           prop "genreNames" (TArray TString);
           prop "hasLyrics" TBoolean;
           prop_opt "isrc" TString;
           prop_opt "movementCount" TNumber;
           prop_opt "movementName" TString;
           prop_opt "movementNumber" TNumber;
           prop "name" TString;
           prop_opt "playParams" (Named "PlayParameters");
           prop "previews" (TArray (Named "Preview"));
           prop_opt "releaseDate" TString;
           prop_opt "trackNumber" TNumber;
           prop "url" TString;
           prop_opt "workName" TString;
           prop_opt "artistUrl" TString;
           prop_opt "personalRating" TNumber;
           prop_opt "inLibrary" TBoolean;
           prop_opt "inFavorites" TBoolean;
           prop_opt "audioLocale" TString]);
     prop_opt "relationships"
       (TObj
          [prop_opt "albums" (TRef "Relationship" [Named "Albums"]);
           prop_opt "artists" (TRef "Relationship" [Named "Artists"]);
           prop_opt "genres" (TRef "Relationship" [Named "Genres"]);
           prop_opt "station" (TRef "Relationship" [Named "Stations"]);
           prop_opt "composers" (TRef "Relationship" [Named "Artists"]);
           prop_opt "library" (TRef "Relationship" [Named "LibraryAlbums"]);
           prop_opt "music-videos" (TRef "Relationship" [Named "MusicVideos"]);
           prop_opt "audio-analysis" (TRef "Relationship" [Named "AudioAnalysis"])])].

(** [interface MusicVideos], src/types/MusicKit.API.d.ts:203 *)
Definition MusicVideos : decl :=
  DInterface "MusicVideos" [] [Named "Resource"]
    [prop "id" (Named "MusicItemID");
     prop "type" (TStrLit "music-videos");
     prop "attributes"
       (TObj
          [prop_opt "albumName" TString;
           prop "artistName" TString;
           prop "artwork" (Named "Artwork");
           prop_opt "contentRating" (Named "ContentRating");
           prop "durationInMillis" TNumber;
           prop_opt "editorialNotes" (Named "EditorialNotes");
           prop "genreNames" (TArray TString);
           prop "has4K" TBoolean;
           prop "hasHDR" TBoolean;
           prop_opt "isrc" TString;
           prop "name" TString;
           prop_opt "playParams" (Named "PlayParameters");
           prop "previews" (TArray (Named "Preview"));
           prop_opt "releaseDate" TString;
           prop_opt "trackNumber" TNumber;
           prop "url" TString;
           prop_opt "videoSubType" (TStrLit "preview");
           prop_opt "workId" TString;
           prop_opt "workName" TString;
           prop_opt "artistUrl" TString;
           prop_opt "personalRating" TNumber;
           prop_opt "inLibrary" TBoolean;
           prop_opt "inFavorites" TBoolean]);
     prop_opt "relationships"
       (TInter
          [TObj
             [prop "albums" (TRef "Relationship" [Named "Albums"]);
              prop "genres" (TRef "Relationship" [Named "Genres"]);
              prop "library" (TRef "Relationship" [Named "LibraryAlbums"]);
              prop "songs" (TRef "Relationship" [Named "Songs"])];
           TRef "Record"
             [TString;
              TUnion
                [TRef "Relationship" [Named "Resource"];
                 TRef "Array" [TRef "Relationship" [Named "Resource"]]]]]);
     prop "views"
       (TObj
          [prop "more-by-artist" (TRef "View" [Named "MusicVideos"]);
           prop "more-in-genre" (TRef "View" [Named "MusicVideos"])])].

(** [interface AppleCurators], src/types/MusicKit.API.d.ts:247 *)
Definition AppleCurators : decl :=
  DInterface "AppleCurators" [] [Named "Resource"]
    [prop "type" (TStrLit "apple-curators");
     prop "attributes"
       (TObj
          [prop "artwork" (Named "Artwork");
           prop_opt "editorialNotes" (Named "EditorialNotes");
           prop "kind" (TUnion [TStrLit "Curator"; TStrLit "Genre"; TStrLit "Show"]);
           prop "name" TString;
           prop_opt "shortName" TString;
           prop_opt "showHostName" TString;
           prop "url" TString]);
     prop_opt "relationships"
       (TInter
          [TObj [prop "playlists" (TRef "Relationship" [Named "Playlists"])];
           TRef "Record"
             [TString;
              TUnion
                [TRef "Relationship" [Named "Resource"];
                 TRef "Array" [TRef "Relationship" [Named "Resource"]]]]])].

(** [interface Curators], src/types/MusicKit.API.d.ts:267 *)
Definition Curators : decl :=
  DInterface "Curators" [] [Named "Resource"]
    [prop "type" (TStrLit "curator");
     prop "attributes"
       (TObj
          [prop "artwork" (Named "Artwork");
           prop_opt "editorialNotes" (Named "EditorialNotes");
           prop "name" TString;
           prop "url" TString]);
     prop "relationships" (TObj [prop "playlists" (TRef "Relationship" [Named "Playlists"])])].

(** [interface Stations], src/types/MusicKit.API.d.ts:284 *)
Definition Stations : decl :=
  DInterface "Stations" [] [Named "Resource"]
    [prop "type" (TStrLit "stations");
     prop "attributes"
       (TObj
          [prop "artwork" (Named "Artwork");
           prop "durationInMillis" TNumber;
           prop "editorialNotes" (Named "EditorialNotes");
           prop "episodeNumber" TNumber;
           prop_opt "contentRating" (Named "ContentRating");
           prop "isLive" TBoolean;
           prop "name" TString;
           prop "playParams" (Named "PlayParameters");
           prop "stationProviderName" TString;
           prop "url" TString;
           prop_opt "personalRating" TNumber;
           prop_opt "inLibrary" TBoolean;
           prop_opt "inFavorites" TBoolean])].

(** [interface RecordLabels], src/types/MusicKit.API.d.ts:307 *)
Definition RecordLabels : decl :=
  DInterface "RecordLabels" [] [Named "Resource"]
    [prop "id" (Named "MusicItemID");
     prop "type" (TStrLit "record-labels");
     prop "attributes"
       (TObj
          [prop "artwork" (Named "Artwork");
           prop "description" (Named "DescriptionAttribute");
           prop "name" TString;
           prop "url" TString]);
     prop "views"
       (TObj
          [prop "latest-releases" (TRef "View" [Named "Albums"]);
           prop "top-releases" (TRef "View" [Named "Albums"])])].

(** [interface Albums], src/types/MusicKit.API.d.ts:326 *)
Definition Albums : decl :=
  DInterface "Albums" [] [Named "Resource"]
    [prop "type" (TStrLit "albums");
     prop "attributes"
       (TObj
          [prop "artistName" TString;
           prop_opt "artistUrl" TString;
           prop "artwork" (Named "Artwork");
           prop_opt "contentRating" (Named "ContentRating");
           prop_opt "copyright" TString;
           prop_opt "editorialNotes" (Named "EditorialNotes");
           prop "genreNames" (TArray TString);
           prop "isCompilation" TBoolean;
           prop "isPrerelease" TBoolean;
           prop "isComplete" TBoolean;
           prop "isMasteredForItunes" TBoolean;
           prop "isSingle" TBoolean;
           prop "name" TString;
           prop_opt "playParams" (Named "PlayParameters");
           prop_opt "recordLabel" TString;
           prop_opt "releaseDate" TString;
           prop "trackCount" TNumber;
           prop_opt "dateAdded" TString;
           prop_opt "upc" TString;
           prop_opt "editorialVideo" (Named "EditorialVideo");
           prop "url" TString;
           prop_opt "personalRating" TNumber;
           prop_opt "inLibrary" TBoolean;
           prop_opt "inFavorites" TBoolean]);
     prop_opt "relationships"
       (TInter
          [TObj
             [prop "artists" (TRef "Relationship" [Named "Artists"]);
              prop "genres" (TRef "Relationship" [Named "Genres"]);
              prop "tracks" (TRef "Relationship" [TUnion [Named "MusicVideos"; Named "Songs"]]);
              prop "library" (TRef "Relationship" [Named "LibraryAlbums"]);
              prop "record-labels" (TRef "Relationship" [Named "RecordLabels"])];
           TRef "Record"
             [TString;
              TUnion
                [TRef "Relationship" [Named "Resource"];
                 TRef "Array" [TRef "Relationship" [Named "Resource"]]]]]);
     prop "views"
       (TObj
          [prop "appears-on" (TRef "View" [Named "Playlists"]);
           prop "other-versions" (TRef "View" [Named "Albums"]);
           prop "related-albums" (TRef "View" [Named "Albums"]);
           prop "related-videos" (TRef "View" [Named "MusicVideos"])])].

(** [interface LibraryAlbums], src/types/MusicKit.API.d.ts:373 *)
Definition LibraryAlbums : decl :=
  DInterface "LibraryAlbums" [] [Named "Albums"]
    [prop "type" (TStrLit "library-albums");
     prop "attributes"
       (TInter
          [TIndexed (Named "Albums") (TStrLit "attributes");
           TObj
             [prop_opt "dateAdded" TString;
              prop_opt "releaseDate" TString;
              prop "trackCount" TNumber;
              prop_opt "personalRating" TNumber;
              prop_opt "inFavorites" TBoolean]]);
     prop_opt "relationships"
       (TInter
          [TObj
             [prop "artists" (TRef "Relationship" [Named "Artists"]);
              prop "catalog" (TRef "Relationship" [Named "Playlists"]);
              prop "tracks" (TRef "Relationship" [TUnion [Named "MusicVideos"; Named "Songs"]])];
           TRef "Record"
             [TString;
              TUnion
                [TRef "Relationship" [Named "Resource"];
                 TRef "Array" [TRef "Relationship" [Named "Resource"]]]]]);
     prop_opt "views" TUndefined].

(** [interface LibrarySongs], src/types/MusicKit.API.d.ts:396 *)
Definition LibrarySongs : decl :=
  DInterface "LibrarySongs" [] [Named "Songs"]
    [prop "type" (TStrLit "library-songs");
     prop "attributes"
       (TInter
          [TIndexed (Named "Songs") (TStrLit "attributes");
           TObj [prop_opt "personalRating" TNumber; prop_opt "inFavorites" TBoolean]]);
     prop_opt "relationships"
       (TObj
          [prop_opt "albums" (TRef "Relationship" [Named "Albums"]);
           prop_opt "artists" (TRef "Relationship" [Named "Artists"]);
           prop_opt "genres" (TRef "Relationship" [Named "Genres"]);
           prop_opt "station" (TRef "Relationship" [Named "Stations"]);
           prop_opt "composers" (TRef "Relationship" [Named "Artists"]);
           prop_opt "library" (TRef "Relationship" [Named "LibraryAlbums"]);
           prop_opt "music-videos" (TRef "Relationship" [Named "MusicVideos"])]);
     prop_opt "views" TUndefined].

(** [interface LibraryPlaylists], src/types/MusicKit.API.d.ts:420 *)
Definition LibraryPlaylists : decl :=
  DInterface "LibraryPlaylists" [] [Named "Resource"]
    [prop "id" (Named "MusicItemID");
     prop "type" (TUnion [TStrLit "library-playlists"; TStrLit "library-playlist-folders"]);
     prop "attributes"
       (TObj
          [prop_opt "hasCollaboration" TBoolean;
           prop "lastModifiedDate" TString;
           prop_opt "trackCount" TNumber;
           prop "canDelete" TBoolean;
           prop "canEdit" TBoolean;
           prop "dateAdded" TString;
           prop "description" (Named "DescriptionAttribute");
           prop_opt "artwork" (Named "Artwork");
           prop "hasCatalog" TBoolean;
           prop "isPublic" TBoolean;
           prop "name" TString;
           prop "playParams" (Named "PlayParameters");
           prop_opt "personalRating" TNumber;
           prop_opt "inFavorites" TBoolean]);
     prop_opt "relationships"
       (TObj
          [prop "catalog" (TRef "Relationship" [Named "Playlists"]);
           prop "tracks" (TRef "Relationship" [TUnion [Named "MusicVideos"; Named "Songs"]])]);
     prop "parent" TString;
     prop_opt "views" TUndefined].

(** [interface Artists], src/types/MusicKit.API.d.ts:456 *)
Definition Artists : decl :=
  DInterface "Artists" [] [Named "Resource"]
    [prop "type" (TStrLit "artists");
     prop "attributes"
       (TObj
          [prop_opt "editorialNotes" (Named "EditorialNotes");
           prop "genreNames" (TArray TString);
           prop "name" TString;
           prop "url" TString;
           prop_opt "artwork" (Named "Artwork");
           prop_opt "personalRating" TNumber;
           prop_opt "inLibrary" TBoolean;
           prop_opt "inFavorites" TBoolean]);
     prop_opt "relationships"
       (TInter
          [TObj
             [prop "albums" (TRef "Relationship" [Named "Albums"]);
              prop "genres" (TRef "Relationship" [Named "Genres"]);
              prop "music-videos" (TRef "Relationship" [Named "MusicVideos"]);
              prop "playlists" (TRef "Relationship" [Named "Playlists"]);
              prop "station" (TRef "Relationship" [Named "Stations"]);
              prop_opt "catalog" (TRef "Relationship" [Named "Artists"])];
           TRef "Record"
             [TString;
              TUnion
                [TRef "Relationship" [Named "Resource"];
                 TRef "Array" [TRef "Relationship" [Named "Resource"]]]]]);
     prop "views"
       (TObj
          [prop "appears-on-albums" (TRef "View" [Named "Albums"]);
           prop "compilation-albums"
             (TObj
                [prop_opt "href" TString;
                 prop_opt "next" TString;
                 prop "attributes" (TObj [prop "title" TString]);
                 prop "data" (TArray (Named "Albums"))]);
           prop "featured-albums" (TRef "View" [Named "Albums"]);
           prop "featured-playlists" (TRef "View" [Named "Playlists"]);
           prop "full-albums" (TRef "View" [Named "Albums"]);
           prop "latest-release" (TRef "View" [Named "Albums"]);
           prop "live-albums" (TRef "View" [Named "Albums"]);
           prop "similar-artists" (TRef "View" [Named "Artists"]);
           prop "singles" (TRef "View" [Named "Albums"]);
           prop "top-music-videos" (TRef "View" [Named "MusicVideos"]);
           prop "top-songs" (TRef "View" [Named "Songs"])])].

(** [interface Playlists], src/types/MusicKit.API.d.ts:502 *)
Definition Playlists : decl :=
  DInterface "Playlists" [] [Named "Resource"]
    [prop "id" (Named "MusicItemID");
     prop "type" (TStrLit "playlists");
     prop "attributes"
       (TObj
          [prop "lastModifiedDate" TString;
           prop "supportsSings" TBoolean;
           prop "description" (Named "DescriptionAttribute");
           prop "artwork" (Named "Artwork");
           prop "url" TString;
           prop "playParams" (Named "PlayParameters");
           prop_opt "trackCount" TNumber;
           prop "curatorName" TString;
           prop_opt "curatorSocialHandle" TString;
           prop "audioTraits" (TArray TString);
           prop "editorialArtwork" (Named "EditorialArtwork");
           prop "name" TString;
           prop "isChart" TBoolean;
           prop "playlistType"
             (TUnion
                [TStrLit "editorial";
                 TStrLit "external";
                 TStrLit "personal-mix";
                 TStrLit "replay";
                 TStrLit "user-shared"]);
           prop_opt "editorialVideo" (Named "EditorialVideo");
           prop_opt "editorialNotes" (Named "EditorialNotes");
           prop_opt "versionHash" TString;
           prop "trackTypes" (TRef "Array" [TUnion [TStrLit "music-videos"; TStrLit "songs"]]);
           prop_opt "tags" (TTuple [TStrLit "favorited"]);
           prop_opt "personalRating" TNumber;
           prop_opt "inLibrary" TBoolean;
           prop_opt "inFavorites" TBoolean]);
     prop_opt "relationships"
       (TObj
          [prop_opt "curator"
             (TRef "Relationship"
                [TUnion [Named "Activities"; Named "AppleCurators"; Named "Curators"]]);
           prop_opt "library" (TRef "Relationship" [Named "LibraryPlaylists"]);
           prop_opt "tracks" (TRef "Relationship" [TUnion [Named "MusicVideos"; Named "Songs"]])]);
     prop "views"
       (TObj
          [prop "featured-artists" (TRef "View" [Named "Artists"]);
           prop "more-by-curator" (TRef "View" [Named "Playlists"])])].

(** [interface PodcastAttributes], src/types/MusicKit.API.d.ts:549 *)
Definition PodcastAttributes : decl :=
  DInterface "PodcastAttributes" [] []
    [prop "offers" (TArray (TObj [prop "kind" TString; prop "type" TString]));
     prop "contentAdvisory" TString;
     prop "copyright" TString;
     prop "artworkOrigin" (TStrLit "podcast");
     prop "genreNames" (TArray TString);
     prop "kind" TString;
     prop "mediaKind" TString;
     prop "description" (Named "DescriptionAttribute");
     prop "artwork" (Named "Artwork");
     prop "url" TString;
     prop "releaseDateTime" TString;
     prop "websiteUrl" TString;
     prop "durationInMilliseconds" TNumber;
     prop "name" TString;
     prop "guid" TString;
     prop "contentRating" (Named "ContentRating");
     prop "artistName" TString;
     prop "subscribable" TBoolean;
     prop "assetUrl" TString].

(** [interface PodcastEpisode], src/types/MusicKit.API.d.ts:578 *)
Definition PodcastEpisode : decl :=
  DInterface "PodcastEpisode" [] [Named "Resource"]
    [prop "type" (TStrLit "podcast-episodes");
     prop "attributes" (Named "PodcastAttributes")].

(** [interface Podcasts], src/types/MusicKit.API.d.ts:587 *)
Definition Podcasts : decl :=
  DInterface "Podcasts" [] [Named "Resource"]
    [prop "type" (TStrLit "podcasts");
     prop "attributes"
       (TInter
          [Named "PodcastAttributes";
           TObj
             [prop "seasonNumbers" (TArray TNumber);
              prop "languageTag" TString;
              prop "completed" TBoolean;
              prop "trackCount" TNumber;
              prop "displayType" TString;
              prop "createdDate" TString;
              prop "subscriptionUrl" TString]])].

(** [interface Activities], src/types/MusicKit.API.d.ts:604 *)
Definition Activities : decl :=
  DInterface "Activities" [] [Named "Resource"]
    [prop "type" (TStrLit "activities");
     prop "attributes"
       (TObj
          [prop "artwork" (Named "Artwork");
           prop_opt "editorialNotes" (Named "EditorialNotes");
           prop "name" TString;
           prop "url" TString]);
     prop "relationships" (TObj [prop "playlists" (TRef "Relationship" [Named "Playlists"])])].

(** [interface PersonalRecommendation], src/types/MusicKit.API.d.ts:621 *)
Definition PersonalRecommendation : decl :=
  DInterface "PersonalRecommendation" [] [Named "Resource"]
    [prop "type" (TStrLit "personal-recommendation");
     prop "attributes"
       (TObj
          [prop "kind"
             (TUnion
                [TStrLit "music-recommendations"; TStrLit "recently-played"; TStrLit "unknown"]);
           prop "nextUpdateDate" TString;
           prop "reason" (TObj [prop "stringForDisplay" TString]);
           prop "resourceTypes" (TArray TString);
           prop "title" (TObj [prop "stringForDisplay" TString]);
           prop_opt "display" (TObj [prop "kind" TString; prop "decorations" (TArray TUnknown)])]);
     prop_opt "relationships"
       (TObj
          [MIndex "k" TString
             (TObj [prop "data" (TArray (Named "Resource")); prop "href" TString])])].

(** [interface SocialProfile], src/types/MusicKit.API.d.ts:650 *)
Definition SocialProfile : decl :=
  DInterface "SocialProfile" [] [Named "Resource"]
    [prop "type" (TStrLit "social-profiles");
     prop "attributes"
       (TObj
          [prop "artwork" (Named "Artwork");
           prop "handle" TString;
           prop "isPrimary" TBoolean;
           prop "isVerified" TBoolean;
           prop "name" TString;
           prop "url" TString])].

(** [interface Groupings], src/types/MusicKit.API.d.ts:666 *)
Definition Groupings : decl :=
  DInterface "Groupings" [] [Named "Resource"]
    [prop "type" (TStrLit "groupings");
     prop "attributes" (TObj [prop "genreNames" (TArray TString); prop "name" TString]);
     prop_opt "relationships"
       (TInter
          [TObj
             [prop "curator" (TRef "Relationship" [Named "Curators"]);
              prop "tabs" (TRef "Relationship" [Named "EditorialElements"])];
           TRef "Record"
             [TString;
              TUnion
                [TRef "Relationship" [Named "Resource"];
                 TRef "Array" [TRef "Relationship" [Named "Resource"]]]]])].

(** [interface Rooms], src/types/MusicKit.API.d.ts:682 *)
Definition Rooms : decl :=
  DInterface "Rooms" [] [Named "Resource"]
    [prop "type" (TStrLit "rooms")].

(** [interface EditorialElements], src/types/MusicKit.API.d.ts:690 *)
Definition EditorialElements : decl :=
  DInterface "EditorialElements" [] [Named "Resource"]
    [prop "type" (TStrLit "editorial-elements");
     prop "attributes"
       (TObj
          [prop_opt "name" TString;
           prop_opt "title" TString;
           prop "editorialElementKind" (TUnion [TString; TNumber]);
           prop_opt "collectionId" TString;
           prop_opt "emphasize" TBoolean;
           prop_opt "featureFirstElement" TBoolean;
           prop_opt "designBadge"
             (TUnion
                [TStrLit "NEW ALBUM";
                 TStrLit "UPDATED PLAYLIST";
                 TStrLit "LISTEN NOW";
                 TStrLit "NEW PLAYLIST";
                 TStrLit "NEW RELEASE";
                 TString]);
           prop_opt "displayStyle" (TUnion [TStrLit "compact"; TStrLit "expanded"]);
           prop_opt "keySwoosh"
             (TUnion [TStrLit "FeaturedPlaylists"; TStrLit "ArtistsPlaylists"; TString]);
           prop_opt "doNotFilter" TBoolean;
           prop_opt "lastModifiedDate" TString;
           prop_opt "links"
             (TArray
                (TObj
                   [prop "label" TString;
                    prop "url" TString;
                    prop_opt "target" (TUnion [TStrLit "external"; TStrLit "internal"])]));
           prop_opt "type" (TStrLit "normal");
           prop_opt "supportedSorts" (TArray TString);
           prop_opt "description" TString]);
     prop "id" (TUnion [TStrLit "default"; TString]);
     prop_opt "relationships"
       (TInter
          [TObj
             [prop "children" (TRef "Relationship" [Named "EditorialElements"]);
              prop_opt "contents" (TRef "Relationship" [Named "Resource"]);
              prop_opt "room" (TRef "Relationship" [Named "Rooms"])];
           TRef "Record"
             [TString;
              TUnion
                [TRef "Relationship" [Named "Resource"];
                 TRef "Array" [TRef "Relationship" [Named "Resource"]]]]])].

(** [interface EditorialItem], src/types/MusicKit.API.d.ts:731 *)
Definition EditorialItem : decl :=
  DInterface "EditorialItem" [] [Named "Resource"]
    [prop "type" (TStrLit "editorial-items");
     prop "attributes"
       (TObj
          [prop "plainEditorialNotes" (Named "EditorialNotes");
           prop "plainEditorialCard" (Named "PlainEditorialCard");
           prop "editorialArtwork" (Named "EditorialArtwork");
           prop "editorialVideo" (Named "EditorialVideo");
           prop "link"
             (TObj
                [prop "url" TString;
                 prop "target" (TUnion [TStrLit "internal"; TStrLit "external"]);
                 prop "feature" (TUnion [TStrLit "internal"; TStrLit "external"])]);
           prop "url" TString]);
     prop_opt "meta" (TObj [prop "editorialCard" TString])].

(** [interface PlainEditorialCard], src/types/MusicKit.API.d.ts:750 *)
Definition PlainEditorialCard : decl :=
  DInterface "PlainEditorialCard" [] []
    [MIndex "key" TString
       (TObj
          [prop "kind" (Named "EditorialArtworkTypes");
           prop "display"
             (TObj [prop "decorations" (TUnion [TStrLit "gradient"; TArray TUnknown])]);
           prop "plainEditorialNotes" (Named "EditorialNotes");
           prop "editorialArtwork" (Named "EditorialArtwork");
           prop "editorialVideo" (Named "EditorialVideo")])].

(** [interface Lyrics], src/types/MusicKit.API.d.ts:766 *)
Definition Lyrics : decl :=
  DInterface "Lyrics" [] [Named "Resource"]
    [prop "type" (TStrLit "lyrics");
     prop "attributes" (TObj [prop "playParams" (Named "PlayParameters"); prop "ttml" TString])].

(** [interface Credit], src/types/MusicKit.API.d.ts:778 *)
Definition Credit : decl :=
  DInterface "Credit" [] [Named "Resource"]
    [prop "type" (TStrLit "role-categories");
     prop "attributes"
       (TObj
          [prop "kind"
             (TUnion
                [TStrLit "performer";
                 TStrLit "composer-and-lyrics";
                 TStrLit "production-and-engineering";
                 TString]);
           prop "title" TString]);
     prop_opt "relationships"
       (TInter
          [TObj [prop "credit-artists" (TRef "Relationship" [Named "CreditArtist"])];
           TRef "Record"
             [TString;
              TUnion
                [TRef "Relationship" [Named "Resource"];
                 TRef "Array" [TRef "Relationship" [Named "Resource"]]]]])].

(** [interface CreditArtist], src/types/MusicKit.API.d.ts:797 *)
Definition CreditArtist : decl :=
  DInterface "CreditArtist" [] [Named "Resource"]
    [prop "type" (TStrLit "credit-artists");
     prop "attributes"
       (TObj
          [prop "name" TString;
           prop "roleNames" (TArray TString);
           prop "artwork" (Named "Artwork")])].

(** [interface Rating], src/types/MusicKit.API.d.ts:810 *)
Definition Rating : decl :=
  DInterface "Rating" [] [Named "Resource"]
    [prop "type" (TStrLit "ratings");
     prop "attributes" (TObj [prop "value" TNumber])].

(** [interface AudioAnalysis], src/types/MusicKit.API.d.ts:821 *)
Definition AudioAnalysis : decl :=
  DInterface "AudioAnalysis" [] [Named "Resource"]
    [prop "type" (TStrLit "audio-analysis");
     prop "attributes"
       (TObj
          [prop "acousticness"
             (TObj [prop "beginning" TNumber; prop "ending" TNumber; prop "main" TNumber]);
           prop "beats"
             (TObj
                [prop "barsInMilliseconds" (TArray TNumber);
                 prop "beatsInMilliseconds" (TArray TNumber)]);
           prop "bpm"
             (TObj
                [prop "beginning" TNumber;
                 prop "ending" TNumber;
                 prop "main" TNumber;
                 prop "percentDeviation" TNumber]);
           prop "danceability"
             (TObj [prop "beginning" TNumber; prop "ending" TNumber; prop "main" TNumber]);
           prop "energy"
             (TObj [prop "beginning" TNumber; prop "ending" TNumber; prop "main" TNumber]);
           prop "key"
             (TObj
                [prop "beginning" (TObj [prop "tonic" TString; prop "mode" TString]);
                 prop "ending" (TObj [prop "tonic" TString; prop "mode" TString]);
                 prop "main" (TObj [prop "tonic" TString; prop "mode" TString])]);
           prop "loudness"
             (TObj
                [prop "beginning"
                   (TObj [prop "peak" TNumber; prop "range" TNumber; prop "value" TNumber]);
                 prop "ending"
                   (TObj [prop "peak" TNumber; prop "range" TNumber; prop "value" TNumber]);
                 prop "main"
                   (TObj [prop "peak" TNumber; prop "range" TNumber; prop "value" TNumber])]);
           prop "melodicness"
             (TObj [prop "beginning" TNumber; prop "ending" TNumber; prop "main" TNumber]);
           prop "valence"
             (TObj [prop "beginning" TNumber; prop "ending" TNumber; prop "main" TNumber])])].

(** [interface ReplaySummary], src/types/MusicKit.API.d.ts:876 *)
Definition ReplaySummary : decl :=
  DInterface "ReplaySummary" [] [Named "Resource"]
    [prop "type" (TStrLit "music-summaries");
     prop "attributes"
       (TObj
          [prop "period" (TUnion [TStrLit "year"; TStrLit "month"]);
           prop "year" TNumber;
           prop_opt "month" TNumber;
           prop "topSongCount" TNumber;
           prop "listenTimeInMinutes" TNumber;
           prop "uniqueStationCount" TNumber;
           prop "uniqueGenreCount" TNumber;
           prop "uniqueAlbumCount" TNumber;
           prop "uniqueArtistCount" TNumber;
           prop "uniquePlaylistCount" TNumber;
           prop "uniqueSongCount" TNumber]);
     prop "topGenres" (TArray (TObj [prop "genre" TString; prop "count" TNumber]));
     prop "views"
       (TObj
          [prop "top-albums" (TRef "Relationship" [Named "ReplayItemSummary"]);
           prop "top-artists" (TRef "Relationship" [Named "ReplayItemSummary"]);
           prop "top-songs" (TRef "Relationship" [Named "ReplayItemSummary"])]);
     prop "relationships" (TObj [prop_opt "playlist" (TRef "Relationship" [Named "Playlists"])])].

(** [interface ReplayMilestone], src/types/MusicKit.API.d.ts:909 *)
Definition ReplayMilestone : decl :=
  DInterface "ReplayMilestone" [] [Named "Resource"]
    [prop "type" (TStrLit "music-summaries-milestones");
     prop "attributes"
       (TObj
          [prop "listenTimeInMinutes" TNumber;
           prop "dateReached" TString;
           prop "value" TNumber;
           prop "kind" (TUnion [TStrLit "listen-time"; TStrLit "artist"; TStrLit "song"])]);
     prop "relationships"
       (TObj
          [prop "top-albums" (TRef "Relationship" [Named "Albums"]);
           prop "top-artists" (TRef "Relationship" [Named "Artists"]);
           prop "top-songs" (TRef "Relationship" [Named "Songs"])])].

(** [interface ReplayItemSummary], src/types/MusicKit.API.d.ts:928 *)
Definition ReplayItemSummary : decl :=
  DInterface "ReplayItemSummary" [] [Named "Resource"]
    [prop "type"
       (TUnion
          [TStrLit "song-period-summaries";
           TStrLit "artist-period-summaries";
           TStrLit "album-period-summaries"]);
     prop "attributes"
       (TObj
          [prop "firstPlayed" TString;
           prop "lastPlayed" TString;
           prop "playCount" TNumber;
           prop_opt "listenTimeInMinutes" TNumber]);
     prop_opt "relationships"
       (TInter
          [TObj
             [prop_opt "song" (TRef "Relationship" [Named "Songs"]);
              prop_opt "artist" (TRef "Relationship" [Named "Artists"]);
              prop_opt "album" (TRef "Relationship" [Named "Albums"])];
           TRef "Record"
             [TString;
              TUnion
                [TRef "Relationship" [Named "Resource"];
                 TRef "Array" [TRef "Relationship" [Named "Resource"]]]]])].

(** [interface Suggestion], src/types/MusicKit.API.d.ts:949 *)
Definition Suggestion : decl :=
  DInterface "Suggestion" [] []
    [prop_opt "displayTerm" TString;
     prop "kind" (TUnion [TStrLit "terms"; TStrLit "topResults"]);
     prop_opt "searchTerm" TString;
     prop_opt "source" TString;
     prop_opt "content" (Named "MusicKit.Resource")].

(** [interface EditorialNotes], src/types/MusicKit.API.d.ts:961 *)
Definition EditorialNotes : decl :=
  DInterface "EditorialNotes" [] []
    [prop_opt "hashValue" TNumber;
     prop_opt "name" TString;
     prop_opt "short" TString;
     prop_opt "standard" TString;
     prop_opt "tagline" TString].

(** [interface Artwork], src/types/MusicKit.API.d.ts:973 *)
Definition Artwork : decl :=
  DInterface "Artwork" [] []
    [prop "bgColor" TString;
     prop "height" TNumber;
     prop "width" TNumber;
     prop "textColor1" TString;
     prop "textColor2" TString;
     prop "textColor3" TString;
     prop "textColor4" TString;
     prop "url" TString;
     prop_opt "hasP3" TBoolean].

(** [type ArtworkKinds], src/types/MusicKit.API.d.ts:1001 *)
Definition ArtworkKinds : decl :=
  DAlias "ArtworkKinds" []
    (TUnion [TStrLit "cc"; TStrLit "sr"; TStrLit "bb"; TStrLit "br"; TStrLit "vf"]).

(** [type ArtworkFormats], src/types/MusicKit.API.d.ts:1006 *)
Definition ArtworkFormats : decl :=
  DAlias "ArtworkFormats" []
    (TUnion
       [TStrLit "jpg";
        TStrLit "jpeg";
        TStrLit "png";
        TStrLit "webp";
        TStrLit "tiff";
        TStrLit "svg"]).

(** [type EditorialArtworkTypes], src/types/MusicKit.API.d.ts:1011 *)
Definition EditorialArtworkTypes : decl :=
  DAlias "EditorialArtworkTypes" []
    (TUnion
       [TStrLit "superHeroTall";
        TStrLit "superHeroWide";
        TStrLit "storeFlowcase";
        TStrLit "subscriptionHero";
        TStrLit "subscriptionCover";
        TStrLit "staticDetailSquare";
        TStrLit "staticDetailTall";
        TStrLit "brandLogo"]).

(** [type EditorialArtwork], src/types/MusicKit.API.d.ts:1025 *)
Definition EditorialArtwork : decl :=
  DAlias "EditorialArtwork" []
    (TMapped "key" (Named "EditorialArtworkTypes") false (Named "Artwork")).

(** [type EditorialVideoTypes], src/types/MusicKit.API.d.ts:1030 *)
Definition EditorialVideoTypes : decl :=
  DAlias "EditorialVideoTypes" []
    (TUnion
       [TStrLit "motionSquareVideo1x1";
        TStrLit "motionTallVideo3x4";
        TStrLit "motionWideVideo21x9";
        TStrLit "motionDetailTall";
        TStrLit "motionDetailSquare"]).

(** [interface Video], src/types/MusicKit.API.d.ts:1041 *)
Definition Video : decl :=
  DInterface "Video" [] []
    [prop "previewFrame" (Named "Artwork");
     prop "video" TString].

(** [type EditorialVideo], src/types/MusicKit.API.d.ts:1050 *)
Definition EditorialVideo : decl :=
  DAlias "EditorialVideo" []
    (TMapped "key" (Named "EditorialVideoTypes") false (Named "Video")).

(** [interface Preview], src/types/MusicKit.API.d.ts:1056 *)
Definition Preview : decl :=
  DInterface "Preview" [] []
    [prop "artwork" (Named "Artwork");
     prop "url" TString;
     prop "hlsUrl" TString].

(** [interface DescriptionAttribute], src/types/MusicKit.API.d.ts:1066 *)
Definition DescriptionAttribute : decl :=
  DInterface "DescriptionAttribute" [] []
    [prop "short" TString;
     prop "standard" TString;
     prop_opt "long" TString].

(** [interface SearchResult], src/types/MusicKit.API.d.ts:1075 *)
Definition SearchResult : decl :=
  DInterface "SearchResult" [TParam "T" None None] []
    [prop "data" (TArray (Named "T"));
     prop_opt "href" TString;
     prop_opt "next" TString].

(** [interface SearchChartResult], src/types/MusicKit.API.d.ts:1084 *)
Definition SearchChartResult : decl :=
  DInterface "SearchChartResult" [TParam "T" None None] []
    [prop "chart" TString;
     prop "data" (TArray (Named "T"));
     prop_opt "href" TString;
     prop "name" TString;
     prop_opt "next" TString].

(** [type QueryParameters], src/types/MusicKit.API.d.ts:1092 *)
Definition QueryParameters : decl :=
  DAlias "QueryParameters" []
    (TRef "Record" [TString; TAny]).

(** [type QueryOptions], src/types/MusicKit.API.d.ts:1094 *)
Definition QueryOptions : decl :=
  DAlias "QueryOptions" []
    (TObj
       [prop_opt "includeResponseMeta" TBoolean; prop_opt "fetchOptions" (Named "RequestInit")]).

(** [interface v3MusicRoutes], src/types/MusicKit.API.d.ts:1103 *)
Definition v3MusicRoutes : decl :=
  DInterface "v3MusicRoutes" [] []
    [prop "v1/me/library/songs" (TArray (Named "MusicKit.Songs"));
     prop "v1/me/library/songs/*" (TArray (Named "MusicKit.Songs"));
     prop "v1/me/library/albums" (TArray (Named "MusicKit.Albums"));
     prop "v1/me/library/artists" (TArray (Named "MusicKit.Artists"));
     prop "/v1/me/recent/played"
       (TUnion [TArray (Named "MusicKit.Songs"); TArray (Named "MusicKit.Albums")]);
     prop "v1/me/library/playlists" (TArray (Named "MusicKit.Playlists"));
     prop "v1/me/library/playlists/*" (TArray (Named "MusicKit.Playlists"));
     prop "v1/me/library/search"
       (TUnion
          [TArray (Named "MusicKit.Songs");
           TArray (Named "MusicKit.Albums");
           TArray (Named "MusicKit.Artists");
           TArray (Named "MusicKit.Playlists")]);
     prop "v1/storefronts" (TArray (Named "MusicKit.Storefronts"));
     prop "v1/me/rating/songs" (TArray (Named "MusicKit.Rating"));
     prop "v1/me/rating/albums" (TArray (Named "MusicKit.Rating"));
     prop "v1/me/rating/playlists" (TArray (Named "MusicKit.Rating"));
     prop "am/groupings" (TArray (Named "MusicKit.Groupings"))].

(** [type QueryResources], src/types/MusicKit.API.d.ts:1131 *)
Definition QueryResources : decl :=
  DAlias "QueryResources" []
    (TMapped "K"
       (TKeyof (Named "MusicKit.ResourceMap"))
       true
       (TObj [MIndex "id" TString (TIndexed (Named "MusicKit.ResourceMap") (Named "K"))])).

(** [type ResourceTypes], src/types/MusicKit.API.d.ts:1136 *)
Definition ResourceTypes : decl :=
  DAlias "ResourceTypes" []
    (TKeyof (Named "ResourceMap")).

(** [interface QueryResponse], src/types/MusicKit.API.d.ts:1139 *)
Definition QueryResponse : decl :=
  DInterface "QueryResponse" [TParam "T" None (Some TUnknown)] []
    [prop "data"
       (TObj
          [prop "data" (Named "T");
           prop "resources" (Named "QueryResources");
           prop "results" (Named "QueryResult");
           prop "next" TString;
           prop "meta"
             (TObj
                [prop "total" TNumber;
                 prop "latestYear" TNumber;
                 prop "isEndOfYear" TBoolean;
                 prop_opt "metrics" (TObj [prop "dataSetId" TString])])]);
     prop "request" TUnknown;
     prop "response" TUnknown].

(** [interface QueryResult], src/types/MusicKit.API.d.ts:1158 *)
Definition QueryResult : decl :=
  DInterface "QueryResult" [] []
    [prop_opt "target" TString;
     prop_opt "activities" (TRef "SearchResult" [Named "Activities"]);
     prop_opt "albums" (TRef "SearchResult" [Named "Albums"]);
     prop_opt "apple-curators" (TRef "SearchResult" [Named "AppleCurators"]);
     prop_opt "artists" (TRef "SearchResult" [Named "Artists"]);
     prop_opt "curators" (TRef "SearchResult" [Named "Curators"]);
     prop_opt "music-videos" (TRef "SearchResult" [Named "MusicVideos"]);
     prop_opt "playlists" (TRef "SearchResult" [Named "Playlists"]);
     prop_opt "record-labels" (TRef "SearchResult" [Named "RecordLabels"]);
     prop_opt "stations" (TRef "SearchResult" [Named "Stations"]);
     prop_opt "songs" (TRef "SearchResult" [Named "Songs"]);
     prop_opt "badgingMap" (TRef "SearchResult" [TUnknown]);
     prop_opt "suggestions" (TArray (Named "Suggestion"));
     prop_opt "top"
       (TObj
          [prop "data"
             (TRef "Array"
                [TUnion
                   [Named "Activities";
                    Named "Albums";
                    Named "AppleCurators";
                    Named "Artists";
                    Named "Curators";
                    Named "MusicVideos";
                    Named "Playlists";
                    Named "RecordLabels";
                    Named "Songs";
                    Named "Stations"]])])].

(** [interface API], src/types/MusicKit.API.d.ts:1192 *)
Definition API : decl :=
  DInterface "API" [] []
    [MMethod "music"
       [TParam "T" (Some (TKeyof (Named "v3MusicRoutes"))) None]
       [Param "route" false (TUnion [Named "T"; TString]);
        Param "parameters" true (Named "QueryParameters");
        Param "options" true (Named "QueryOptions")]
       (TRef "Promise"
          [TRef "QueryResponse" [TUnion [TIndexed (Named "v3MusicRoutes") (Named "T"); TAny]]]);
     prop "storefrontId" TString].

Definition MusicKit_API_d_ts : file :=
  {| f_path := "src/types/MusicKit.API.d.ts";
     f_items :=
       [IReference "MusicKit.Player.d.ts";
        INamespace true "MusicKit"
          [MusicItemID;
           ContentRating;
           BaseResource;
           BaseMediaResource;
           BaseLibraryResource;
           ResourceMap;
           Relationships;
           Relationship;
           View;
           Resource;
           Storefronts;
           Genres;
           Songs;
           MusicVideos;
           AppleCurators;
           Curators;
           Stations;
           RecordLabels;
           Albums;
           LibraryAlbums;
           LibrarySongs;
           LibraryPlaylists;
           Artists;
           Playlists;
           PodcastAttributes;
           PodcastEpisode;
           Podcasts;
           Activities;
           PersonalRecommendation;
           SocialProfile;
           Groupings;
           Rooms;
           EditorialElements;
           EditorialItem;
           PlainEditorialCard;
           Lyrics;
           Credit;
           CreditArtist;
           Rating;
           AudioAnalysis;
           ReplaySummary;
           ReplayMilestone;
           ReplayItemSummary;
           Suggestion;
           EditorialNotes;
           Artwork;
           ArtworkKinds;
           ArtworkFormats;
           EditorialArtworkTypes;
           EditorialArtwork;
           EditorialVideoTypes;
           Video;
           EditorialVideo;
           Preview;
           DescriptionAttribute;
           SearchResult;
           SearchChartResult;
           QueryParameters;
           QueryOptions;
           v3MusicRoutes;
           QueryResources;
           ResourceTypes;
           QueryResponse;
           QueryResult;
           API]] |}.

(** * [src/types/MusicKit.Events.d.ts] *)

(** [interface Events], src/types/MusicKit.Events.d.ts:16 *)
Definition Events : decl :=
  DInterface "Events" [] []
    [prop "authorizationStatusDidChange"
       (TObj [prop "authorizationStatus" (Named "AuthStatus")]);
     prop "authorizationStatusWillChange" TUnknown;
     prop "eligibleForSubscribeView" TUnknown;
     prop "loaded" TUnknown;
     prop "mediaCanPlay" TUnknown;
     prop "mediaItemStateDidChange" (Named "MediaItem");
     prop "mediaItemStateWillChange" (Named "MediaItem");
     prop "mediaPlaybackError" (TObj [prop "message" TString]);
     prop "metadataDidChange" TUnknown;
     prop "playbackBitrateDidChange" (TObj [prop "bitrate" TNumber]);
     prop "playbackDurationDidChange" TUnknown;
     prop "bufferedProgressDidChange" (TObj [prop "progress" TNumber]);
     prop "playbackProgressDidChange" (TObj [prop "progress" TNumber]);
     prop "playbackStateDidChange"
       (TObj
          [prop "nowPlayingItem" (Named "MusicKit.MediaItem");
           prop "oldState" (Named "PlaybackStates");
           prop "state" (Named "PlaybackStates")]);
     prop "playbackStateWillChange"
       (TObj
          [prop "nowPlayingItem" (Named "MusicKit.MediaItem");
           prop "oldState" (Named "PlaybackStates");
           prop "state" (Named "PlaybackStates")]);
     prop "playbackTargetAvailableDidChange" TUnknown;
     prop "playbackTimeDidChange"
       (TObj
          [prop "currentPlaybackDuration" TNumber;
           prop "currentPlaybackTime" TNumber;
           prop "currentPlaybackTimeRemaining" TNumber]);
     prop "playbackVolumeDidChange" (Named "Event");
     prop "primaryPlayerDidChange" TUnknown;
     prop "queueItemsDidChange" (TArray (Named "MediaItem"));
     prop "queuePositionDidChange" (TObj [prop "oldPosition" TNumber; prop "position" TNumber]);
     prop "storefrontCountryCodeDidChange" TUnknown;
     prop "storefrontIdentifierDidChange" TUnknown;
     prop "userTokenDidChange" (TObj [prop "userToken" TString]);
     prop "nowPlayingItemDidChange" (TObj [prop "item" (Named "MediaItem")]);
     prop "repeatModeDidChange" (Named "PlayerRepeatMode");
     prop "shuffleModeDidChange" (Named "PlayerShuffleMode");
     prop "autoplayEnabledDidChange" TBoolean;
     prop "timedMetadataDidChange"
       (TObj
          [prop "album" TString;
           prop "blob" (Named "Blob");
           prop "links" (TArray (TObj [prop "description" TString; prop "url" TString]));
           prop "performer" TString;
           prop "storefrontAdamIds" (TObj [MIndex "id" TString TString]);
           prop "title" TString]);
     prop "mediaElementCreated" (TObj [prop "mediaElement" TUnknown])].

Definition MusicKit_Events_d_ts : file :=
  {| f_path := "src/types/MusicKit.Events.d.ts";
     f_items :=
       [INamespace true "MusicKit" [Events]] |}.

(** * [src/unnamed/part_001] *)

(** [class MKError], src/unnamed/part_001:31 *)
Definition MKError : decl :=
  DClass "MKError" (Some (Named "Error"))
    [CProp false "errorCode" false TString None;
     CProp false "description" true (TUnion [TString; TUndefined]) None;
     CProp true "ACCESS_DENIED" false TString None;
     CProp true "AUTHORIZATION_ERROR" false TString None;
     CProp true "CONFIGURATION_ERROR" false TString None;
     CProp true "CONTENT_RESTRICTED" false TString None;
     CProp true "INVALID_ARGUMENTS" false TString None;
     CProp true "MEDIA_CERTIFICATE" false TString None;
     CProp true "MEDIA_DESCRIPTOR" false TString None;
     CProp true "MEDIA_KEY" false TString None;
     CProp true "MEDIA_LICENSE" false TString None;
     CProp true "MEDIA_PLAYBACK" false TString None;
     CProp true "MEDIA_SESSION" false TString None;
     CProp true "NETWORK_ERROR" false TString None;
     CProp true "NOT_FOUND" false TString None;
     CProp true "QUOTA_EXCEEDED" false TString None;
     CProp true "SERVER_ERROR" false TString None;
     CProp true "SERVICE_UNAVAILABLE" false TString None;
     CProp true "SUBSCRIPTION_ERROR" false TString None;
     CProp true "UNKNOWN_ERROR" false TString None;
     CProp true "UNSUPPORTED_ERROR" false TString None].

Definition MKError_file : file :=
  {| f_path := "src/unnamed/part_001";
     f_items :=
       [INamespace true "MusicKit" [MKError]] |}.

(** * [src/types/MusicKit.MusicKitInstance.d.ts] *)

(** [interface MusicKitInstance], src/types/MusicKit.MusicKitInstance.d.ts:12 *)
Definition MusicKitInstance : decl :=
  DInterface "MusicKitInstance" [] [Named "Player"]
    [prop "capabilities" TAny;
     ro_prop "api" (Named "API");
     ro_prop "bitrate" (Named "PlaybackBitrate");
     ro_prop "developerToken" TString;
     ro_prop "isAuthorized" TBoolean;
     ro_prop "musicUserToken" TString;
     ro_prop "playbackState" (Named "PlaybackStates");
     ro_prop "playbackTargetAvailable" TBoolean;
     ro_prop "player" (Named "Player");
     ro_prop "storefrontId" TString;
     ro_prop "storefrontCountryCode" TString;
     prop "privateEnabled" TBoolean;
     prop "volume" TNumber;
     prop "autoplayEnabled" TBoolean;
     prop "playbackRate" TNumber;
     prop "currentPlaybackProgress" TNumber;
     MMethod "addEventListener"
       [TParam "K" (Some (TKeyof (Named "MusicKit.Events"))) None]
       [Param "name" false (Named "K");
        Param "callback" false
          (TFun [Param "event" false (TIndexed (Named "MusicKit.Events") (Named "K"))] TVoid)]
       TVoid;
     MMethod "addToLibrary"
       []
       [Param "id" false TString; Param "type" true TString]
       (TRef "Promise" [TObj [MIndex "type" TString (TArray TString)]]);
     MMethod "authorize" [] [] (TRef "Promise" [TString]);
     MMethod "changeToMediaAtIndex" [] [Param "index" false TNumber] (TRef "Promise" [TNumber]);
     MMethod "pause" [] [] TVoid;
     MMethod "play" [] [] (TRef "Promise" [Named "MediaItemPosition"]);
     MMethod "playLater"
       []
       [Param "options" false (Named "SetQueueOptions")]
       (TRef "Promise" [TVoid]);
     MMethod "playNext"
       []
       [Param "options" false (Named "SetQueueOptions")]
       (TRef "Promise" [TVoid]);
     MMethod "removeEventListener"
       [TParam "K" (Some (TKeyof (Named "MusicKit.Events"))) None]
       [Param "name" false (Named "K");
        Param "callback" true
          (TFun [Param "event" false (TIndexed (Named "MusicKit.Events") (Named "K"))] TVoid)]
       TVoid;
     MMethod "seekToTime" [] [Param "time" false TNumber] (TRef "Promise" [TAny]);
     MMethod "setQueue"
       []
       [Param "options" false (Named "SetQueueOptions")]
       (TRef "Promise" [Named "Queue"]);
     prop "queue" (Named "Queue");
     MMethod "clearQueue" [] [] TVoid;
     MMethod "skipToNextItem" [] [] (TRef "Promise" [Named "MediaItemPosition"]);
     MMethod "skipToPreviousItem" [] [] (TRef "Promise" [Named "MediaItemPosition"]);
     MMethod "stop" [] [] TVoid;
     MMethod "unauthorize" [] [] (TRef "Promise" [TAny]);
     prop "videoContainerElement" (Named "HTMLDivElement");
     MMethod "savePlaybackState" [] [] TVoid;
     MMethod "restorePlaybackState" [] [] TVoid;
     prop "_previousPlaybackState"
       (TObj
          [prop "autoplayEnabled" TBoolean;
           prop "playbackMode" TNumber;
           prop "repeatMode" TNumber;
           prop "shuffleMode" TNumber;
           prop "volume" TNumber]);
     prop_opt "services" TAny;
     prop_opt "previewOnly" TBoolean;
     prop "_bag" TAny].

(** [enum PlaybackStates], src/types/MusicKit.MusicKitInstance.d.ts:240 *)
Definition PlaybackStates : decl :=
  DEnum "PlaybackStates"
    [("none", None);
     ("loading", None);
     ("playing", None);
     ("paused", None);
     ("stopped", None);
     ("ended", None);
     ("seeking", None);
     ("waiting", None);
     ("stalled", None);
     ("completed", None)].

(** [enum PlaybackBitrate], src/types/MusicKit.MusicKitInstance.d.ts:269 *)
Definition PlaybackBitrate : decl :=
  DEnum "PlaybackBitrate"
    [("HIGH", Some (ENum 256));
     ("STANDARD", Some (ENum 64))].

(** [type PlayerRepeatMode], src/types/MusicKit.MusicKitInstance.d.ts:283 *)
Definition PlayerRepeatMode : decl :=
  DAlias "PlayerRepeatMode" []
    (TUnion [TNumLit 0; TNumLit 1; TNumLit 2]).

(** [type PlayerShuffleMode], src/types/MusicKit.MusicKitInstance.d.ts:291 *)
Definition PlayerShuffleMode : decl :=
  DAlias "PlayerShuffleMode" []
    (TUnion [TNumLit 0; TNumLit 1]).

(** [type MediaItemPosition], src/types/MusicKit.MusicKitInstance.d.ts:299 *)
Definition MediaItemPosition : decl :=
  DAlias "MediaItemPosition" []
    TNumber.

(** [interface MediaItemAsset], src/types/MusicKit.MusicKitInstance.d.ts:301 *)
Definition MediaItemAsset : decl :=
  DInterface "MediaItemAsset" [] []
    [prop "URL" TString;
     prop "artworkURL" TString;
     prop "chunks" (TObj [prop "chunkSize" TNumber; prop "hashes" (TArray TString)]);
     prop "downloadKey" TString;
     prop "file-size" TNumber;
     prop "flavor"
       (TUnion
          [TStrLit "30:cbcp256";
           TStrLit "34:cbcp64";
           TStrLit "28:ctrp256";
           TStrLit "32:ctrp64";
           TStrLit "37:ibhp256";
           TStrLit "38:ibhp64"]);
     prop "md5" TString;
     prop "metadata"
       (TObj [prop "composerId" TString; prop "genreId" TString; prop "copyright" TString])].

(** [interface Container], src/types/MusicKit.MusicKitInstance.d.ts:316 *)
Definition Container : decl :=
  DInterface "Container" [] []
    [prop "id" TString;
     prop "type" TString;
     prop_opt "href" TString;
     prop_opt "name" TString;
     prop_opt "attributes" (TRef "Record" [TString; TAny])].

(** [interface Context], src/types/MusicKit.MusicKitInstance.d.ts:324 *)
Definition Context : decl :=
  DInterface "Context" [] []
    [prop "featureName" TString].

(** [interface Player], src/types/MusicKit.MusicKitInstance.d.ts:331 *)
Definition Player : decl :=
  DInterface "Player" [] []
    [ro_prop "bitrate" TNumber;
     ro_prop "canSupportDRM" TBoolean;
     ro_prop "currentPlaybackDuration" TNumber;
     ro_prop "currentPlaybackProgress" TNumber;
     ro_prop "currentPlaybackTime" TNumber;
     ro_prop "currentPlaybackTimeRemaining" TNumber;
     ro_prop "formattedCurrentPlaybackDuration" (Named "FormattedPlaybackDuration");
     ro_prop "isPlaying" TBoolean;
     ro_prop "nowPlayingItem"
       (TInter
          [Named "MediaItem";
           TObj
             [prop "assets" (TArray (Named "MediaItemAsset"));
              prop "container" (Named "Container");
              prop "context" (Named "Context")]]);
     ro_prop_opt "nowPlayingItemIndex" (TUnion [TNumber; TUndefined]);
     ro_prop "playbackRate" TNumber;
     ro_prop "playbackState" (Named "PlaybackStates");
     ro_prop_opt "playbackTargetAvailable" (TUnion [TBoolean; TUndefined]);
     ro_prop "queue" (Named "Queue");
     prop "repeatMode" (Named "PlayerRepeatMode");
     prop "shuffleMode" (Named "PlayerShuffleMode");
     prop "volume" TNumber;
     MMethod "addEventListener"
       []
       [Param "name" false TString; Param "callback" false (TFun [] TAny)]
       TVoid;
     MMethod "changeToMediaAtIndex"
       []
       [Param "index" false TNumber]
       (TRef "Promise" [Named "MediaItemPosition"]);
     MMethod "changeToMediaItem"
       []
       [Param "descriptor" false (Named "Descriptor")]
       (TRef "Promise" [Named "MediaItemPosition"]);
     MMethod "mute" [] [] TVoid;
     MMethod "pause" [] [] TVoid;
     MMethod "play" [] [] (TRef "Promise" [Named "MediaItemPosition"]);
     MMethod "prepareToPlay"
       []
       [Param "descriptor" false (Named "Descriptor")]
       (TRef "Promise" [TVoid]);
     MMethod "removeEventListener"
       []
       [Param "name" false TString; Param "callback" false (TFun [] TAny)]
       TVoid;
     MMethod "seekToTime" [] [Param "time" false TNumber] (TRef "Promise" [TVoid]);
     MMethod "showPlaybackTargetPicker" [] [] TVoid;
     MMethod "skipToNextItem" [] [] (TRef "Promise" [Named "MediaItemPosition"]);
     MMethod "skipToPreviousItem" [] [] (TRef "Promise" [Named "MediaItemPosition"]);
     MMethod "stop" [] [] TVoid].

Definition MusicKit_MusicKitInstance_d_ts : file :=
  {| f_path := "src/types/MusicKit.MusicKitInstance.d.ts";
     f_items :=
       [INamespace true "MusicKit" [MusicKitInstance];
        INamespace true "MusicKit"
          [PlaybackStates;
           PlaybackBitrate;
           PlayerRepeatMode;
           PlayerShuffleMode;
           MediaItemPosition;
           MediaItemAsset;
           Container;
           Context;
           Player]] |}.

(** * [src/types/MusicKit.Queue.d.ts] *)

(** [interface Queue], src/types/MusicKit.Queue.d.ts:12 *)
Definition Queue : decl :=
  DInterface "Queue" [] []
    [ro_prop "isEmpty" TBoolean;
     prop "items" (TArray (Named "MediaItem"));
     ro_prop "length" TNumber;
     ro_prop_opt "nextPlayableItem" (TUnion [Named "MediaItem"; TUndefined]);
     ro_prop "nextPlayableItemIndex" TNumber;
     ro_prop "position" TNumber;
     ro_prop_opt "previousPlayableItem" (TUnion [Named "MediaItem"; TUndefined]);
     ro_prop "previousPlayableItemIndex" TNumber;
     ro_prop "hasAutoplayStation" TBoolean;
     prop "_queueItems"
       (TRef "Array" [TObj [prop "isAutoplay" TBoolean; prop "item" (Named "MediaItem")]]);
     MMethod "_reindex" [] [] TVoid;
     MMethod "addEventListener"
       []
       [Param "name" false TString; Param "callback" false (TFun [] TAny)]
       TVoid;
     MMethod "append" [] [Param "descriptor" false (Named "Descriptor")] TVoid;
     MMethod "indexForItem" [] [Param "descriptor" false (Named "Descriptor")] TNumber;
     MMethod "item"
       []
       [Param "index" false TNumber]
       (TUnion [Named "MediaItem"; TNull; TUndefined]);
     MMethod "prepend" [] [Param "descriptor" false TAny] TVoid;
     MMethod "removeEventListener"
       []
       [Param "name" false TString; Param "callback" false (TFun [] TAny)]
       TVoid].

Definition MusicKit_Queue_d_ts : file :=
  {| f_path := "src/types/MusicKit.Queue.d.ts";
     f_items :=
       [INamespace true "MusicKit" [Queue]] |}.

(** * [src/types/MusicKit.SetQueueOptions.d.ts] *)

(** [interface SetQueueOptions], src/types/MusicKit.SetQueueOptions.d.ts:24 *)
Definition SetQueueOptions : decl :=
  DInterface "SetQueueOptions" [] []
    [prop_opt "album" (TUnion [TString; TUndefined]);
     prop_opt "items" (TUnion [TArray (Named "Descriptor"); TUndefined]);
     prop_opt "parameters" (TUnion [Named "QueryParameters"; TUndefined]);
     prop_opt "playlist" (TUnion [TString; TUndefined]);
     prop_opt "song" (TUnion [TString; TUndefined]);
     prop_opt "songs" (TUnion [TArray TString; TUndefined]);
     prop_opt "musicVideos" (TUnion [TArray TString; TUndefined]);
     prop_opt "station" (TUnion [TString; TUndefined]);
     prop_opt "startPosition" (TUnion [TNumber; TUndefined]);
     prop_opt "url" (TUnion [TString; TUndefined])].

Definition MusicKit_SetQueueOptions_d_ts : file :=
  {| f_path := "src/types/MusicKit.SetQueueOptions.d.ts";
     f_items :=
       [INamespace true "MusicKit" [SetQueueOptions]] |}.

End MusicKit.

(** The files under [src/], in the order of the reference directives of
    [index.d.ts].  [MusicKit.MediaItem.d.ts], which [index.d.ts] also
    references, is not among them; the declarations of [MusicKit.Player.d.ts]
    are the second namespace block of [MusicKit.MusicKitInstance.d.ts]. *)
Definition repository : list file :=
  [MusicKit.index_d_ts;
   MusicKit.MusicKit_d_ts;
   MusicKit.MusicKit_API_d_ts;
   MusicKit.MusicKit_Events_d_ts;
   MusicKit.MKError_file;
   MusicKit.MusicKit_MusicKitInstance_d_ts;
   MusicKit.MusicKit_Queue_d_ts;
   MusicKit.MusicKit_SetQueueOptions_d_ts].

(** ** Declarations, namespaces and name resolution *)

Definition decl_name (d : decl) : string :=
  match d with
  | DInterface n _ _ _ | DAlias n _ _ | DEnum n _ | DVar _ n _ _
  | DFunction n _ _ _ _ | DClass n _ _ => n
  end.

Definition item_decls (i : item) : list decl :=
  match i with
  | INamespace _ _ ds => ds
  | IReference _ | IStatement _ => []
  end.

Definition file_decls (f : file) : list decl := flat_map item_decls (f_items f).

(** Namespace merging: blocks of the same name, in whatever file, contribute
    to one namespace. *)
Definition namespace_decls (ns : string) (fs : list file) : list decl :=
  flat_map
    (fun f =>
       flat_map
         (fun i =>
            match i with
            | INamespace _ n ds => if n =? ns then ds else []
            | _ => []
            end)
         (f_items f))
    fs.

Definition env : Type := list decl.

(** The declarations of namespace [MusicKit] found under [src/]. *)
Definition musickit : env := namespace_decls "MusicKit" repository.

(** Inside the namespace [Songs] and [MusicKit.Songs] are the same name. *)
Definition unqualify (ns name : string) : string :=
  let p := String.append ns "." in
  if prefix p name
  then substring (String.length p) (String.length name - String.length p) name
  else name.

Definition lookup (E : env) (name : string) : option decl :=
  find (fun d => decl_name d =? unqualify "MusicKit" name) E.

Definition declared (E : env) (name : string) : bool :=
  match lookup E name with Some _ => true | None => false end.

(** ** Run-time content of a declaration set *)

(** The expressions of a statement list, and the sub-expressions of an
    expression, flattened. *)
Fixpoint subexprs (e : expr) : list expr :=
  e ::
  match e with
  | ENum _ | EStr _ | EIdent _ => []
  | EMember a _ => subexprs a
  | ECall f args => subexprs f ++ flat_map subexprs args
  | ENew c args => subexprs c ++ flat_map subexprs args
  | EAssign l r => subexprs l ++ subexprs r
  end.

Fixpoint substmts (s : stmt) : list stmt :=
  s ::
  match s with
  | SExpr _ | SReturn _ | SThrow _ => []
  | SIf _ th el => flat_map substmts th ++ flat_map substmts el
  | STry b h => flat_map substmts b ++ flat_map substmts h
  end.

Definition stmt_exprs (s : stmt) : list expr :=
  match s with
  | SExpr e | SThrow e | SIf e _ _ => subexprs e
  | SReturn (Some e) => subexprs e
  | SReturn None | STry _ _ => []
  end.

(** The implementation a declaration carries: the body of a function or of
    a method, the initialiser of a constant or of a class field.  Interfaces
    and type aliases have no place for one; the initialiser of an enum member
    is a constant of the declaration, not an implementation. *)
Definition class_member_impl (c : string) (m : class_member) : list stmt :=
  match m with
  | CProp _ n _ _ (Some e) => [SExpr (EAssign (EMember (EIdent c) n) e)]
  | CProp _ _ _ _ None => []
  | CMethod _ _ _ _ (Some b) => b
  | CMethod _ _ _ _ None => []
  end.

Definition implementation (d : decl) : list stmt :=
  match d with
  | DInterface _ _ _ _ | DAlias _ _ _ | DEnum _ _ => []
  | DVar _ n _ (Some e) => [SExpr (EAssign (EIdent n) e)]
  | DVar _ _ _ None => []
  | DFunction _ _ _ _ (Some b) => b
  | DFunction _ _ _ _ None => []
  | DClass n _ ms => flat_map (class_member_impl n) ms
  end.

(** ** Enum members

    The value of a member is its constant initialiser.  A member without
    initialiser takes the value after its predecessor's (0 for the first) in
    an ordinary enum; in an ambient enum it is a computed member, for which
    the declaration fixes no value. *)
Definition const_value (e : expr) : option Z :=
  match e with ENum n => Some n | _ => None end.

Fixpoint enum_values_from (ambient : bool) (auto : option Z)
    (ms : list (string * option expr)) : list (string * option Z) :=
  match ms with
  | [] => []
  | (m, init) :: rest =>
      let v := match init with
               | Some e => const_value e
               | None => if ambient then None else auto
               end in
      (m, v) :: enum_values_from ambient (option_map Z.succ v) rest
  end.

Definition enum_values (ambient : bool) (ms : list (string * option expr))
  : list (string * option Z) :=
  enum_values_from ambient (Some 0%Z) ms.

(** What a compiler emits for a declaration outside an ambient context: its
    implementation and, for an enum, the assignments that build the enum
    object. *)
Definition enum_assignment (n : string) (m : string * option expr) (v : string * option Z)
  : stmt :=
  let rhs := match snd v, snd m with
             | Some z, _ => ENum z
             | None, Some e => e
             | None, None => EIdent (fst m)
             end in
  SExpr (EAssign (EMember (EIdent n) (fst m)) rhs).

Definition emitted_decl (d : decl) : list stmt :=
  match d with
  | DEnum n ms =>
      map (fun mv => enum_assignment n (fst mv) (snd mv))
          (combine ms (enum_values false ms))
  | _ => implementation d
  end.

(** What a file contributes at run time.  A reference directive and an
    ambient namespace ([declare namespace]) emit nothing. *)
Definition emitted_item (i : item) : list stmt :=
  match i with
  | IReference _ => []
  | INamespace true _ _ => []
  | INamespace false _ ds => flat_map emitted_decl ds
  | IStatement s => [s]
  end.

Definition emitted (f : file) : list stmt := flat_map emitted_item (f_items f).

(** All the code of a file: what it emits together with every
    implementation written in it, ambient or not. *)
Definition file_code (f : file) : list stmt :=
  flat_map substmts (emitted f ++ flat_map implementation (file_decls f)).

Definition file_exprs (f : file) : list expr := flat_map stmt_exprs (file_code f).

Definition is_throw (s : stmt) : bool := match s with SThrow _ => true | _ => false end.
Definition is_try (s : stmt) : bool := match s with STry _ _ => true | _ => false end.
Definition is_branch (s : stmt) : bool := match s with SIf _ _ _ => true | _ => false end.
Definition is_new (e : expr) : bool := match e with ENew _ _ => true | _ => false end.
Definition is_assign (e : expr) : bool := match e with EAssign _ _ => true | _ => false end.
Definition is_call (e : expr) : bool := match e with ECall _ _ => true | _ => false end.
Definition is_read (e : expr) : bool := match e with EIdent _ => true | _ => false end.

(** The enums of a file list with the values of their members; an enum is
    ambient when its namespace block is. *)
Definition item_enums (i : item) : list (string * list (string * option Z)) :=
  match i with
  | INamespace a _ ds =>
      flat_map
        (fun d => match d with DEnum n ms => [(n, enum_values a ms)] | _ => [] end)
        ds
  | _ => []
  end.

Definition enums (fs : list file) : list (string * list (string * option Z)) :=
  flat_map (fun f => flat_map item_enums (f_items f)) fs.

Fixpoint assoc {A : Type} (k : string) (l : list (string * A)) : option A :=
  match l with
  | [] => None
  | (k', v) :: r => if k' =? k then Some v else assoc k r
  end.

(** [E.M] for an enum [E] and a member [M]: the value the declarations pin. *)
Definition enum_member (fs : list file) (e m : string) : option Z :=
  match assoc e (enums fs) with
  | Some ms => match assoc m ms with Some v => v | None => None end
  | None => None
  end.

(** The members of an enum that have a pinned value. *)
Definition pinned (fs : list file) (e : string) : list (string * Z) :=
  match assoc e (enums fs) with
  | Some ms =>
      flat_map (fun mv => match snd mv with Some z => [(fst mv, z)] | None => [] end) ms
  | None => []
  end.

(** ** References between declarations *)

(** The position in which a declaration names another one.  The first group
    are positions inside types; the second group are uses inside code. *)
Inductive relation_kind : Type :=
| RExtends        (* [interface A extends B] *)
| RClassExtends   (* [class A extends B] *)
| RMapped         (* inside a mapped type [{ [K in ...]: ... }] *)
| RUnion          (* an alternative of a union *)
| RReference      (* the type of a property, parameter, result, element or constant *)
| RTypeArgument   (* an argument of a generic type, [Relationship<Albums>] *)
| RIntersection   (* an operand of [&] *)
| RIndexedAccess  (* [Albums['attributes']] *)
| RKeyof          (* the operand of [keyof] *)
| RCall           (* a call in a body or initialiser *)
| RNew            (* [new C(...)] *)
| RAssign         (* the target of an assignment *)
| RRead.          (* a variable read *)

Definition relation_kind_eqb (a b : relation_kind) : bool :=
  match a, b with
  | RExtends, RExtends | RClassExtends, RClassExtends | RMapped, RMapped
  | RUnion, RUnion | RReference, RReference | RTypeArgument, RTypeArgument
  | RIntersection, RIntersection | RIndexedAccess, RIndexedAccess
  | RKeyof, RKeyof | RCall, RCall | RNew, RNew | RAssign, RAssign
  | RRead, RRead => true
  | _, _ => false
  end.

(** Resolved statically by a type checker, with nothing left at run time. *)
Definition compile_time (k : relation_kind) : bool :=
  match k with
  | RCall | RNew | RAssign | RRead => false
  | _ => true
  end.

Definition tparam_name (p : tparam) : string :=
  match p with TParam n _ _ => n end.

Definition is_bound (bound : list string) (n : string) : bool :=
  existsb (String.eqb n) bound.

(** The type names a type mentions, each with the position it is in.
    [bound] holds the type parameters in scope; [k] is the position of [t]
    itself.  Everything inside a mapped type counts as part of the mapping. *)
Fixpoint occs_ty (bound : list string) (k : relation_kind) (t : ty)
  : list (relation_kind * string) :=
  match t with
  | TString | TNumber | TBoolean | TAny | TUnknown | TVoid | TUndefined | TNull
  | TStrLit _ | TNumLit _ => []
  | TRef n args =>
      (if is_bound bound n then [] else [(k, n)])
      ++ flat_map (occs_ty bound RTypeArgument) args
  | TArray e => occs_ty bound k e
  | TTuple es => flat_map (occs_ty bound RReference) es
  | TUnion alts => flat_map (occs_ty bound RUnion) alts
  | TInter parts => flat_map (occs_ty bound RIntersection) parts
  | TObj ms => flat_map (occs_member bound) ms
  | TFun ps r => flat_map (occs_param bound) ps ++ occs_ty bound RReference r
  | TIndexed o i => occs_ty bound RIndexedAccess o ++ occs_ty bound RIndexedAccess i
  | TKeyof u => occs_ty bound RKeyof u
  | TMapped x d _ b =>
      map (fun o => (RMapped, snd o))
          (occs_ty bound RMapped d ++ occs_ty (x :: bound) RMapped b)
  end
with occs_member (bound : list string) (m : member) : list (relation_kind * string) :=
  match m with
  | MProp _ _ _ t => occs_ty bound RReference t
  | MMethod _ tps ps r =>
      let bound' := map tparam_name tps ++ bound in
      flat_map (occs_tparam bound') tps
      ++ flat_map (occs_param bound') ps
      ++ occs_ty bound' RReference r
  | MIndex _ kt t => occs_ty bound RReference kt ++ occs_ty bound RReference t
  end
with occs_param (bound : list string) (p : param) : list (relation_kind * string) :=
  match p with Param _ _ t => occs_ty bound RReference t end
with occs_tparam (bound : list string) (p : tparam) : list (relation_kind * string) :=
  match p with
  | TParam _ c d =>
      match c with Some t => occs_ty bound RReference t | None => [] end
      ++ match d with Some t => occs_ty bound RReference t | None => [] end
  end.

(** Uses of names inside code. *)
Definition occs_expr (e : expr) : list (relation_kind * string) :=
  match e with
  | ECall (EIdent f) _ => [(RCall, f)]
  | ENew (EIdent c) _ => [(RNew, c)]
  | EAssign (EIdent x) _ => [(RAssign, x)]
  | EIdent x => [(RRead, x)]
  | _ => []
  end.

Definition occs_code (b : list stmt) : list (relation_kind * string) :=
  flat_map occs_expr (flat_map stmt_exprs (flat_map substmts b)).

Definition occs_class_member (m : class_member) : list (relation_kind * string) :=
  match m with
  | CProp _ _ _ t _ => occs_ty [] RReference t
  | CMethod _ _ ps r _ => flat_map (occs_param []) ps ++ occs_ty [] RReference r
  end.

Definition occs_decl (d : decl) : list (relation_kind * string) :=
  match d with
  | DInterface _ tps ex ms =>
      let bound := map tparam_name tps in
      flat_map (occs_tparam bound) tps
      ++ flat_map (occs_ty bound RExtends) ex
      ++ flat_map (occs_member bound) ms
  | DAlias _ tps t =>
      let bound := map tparam_name tps in
      flat_map (occs_tparam bound) tps ++ occs_ty bound RReference t
  | DEnum _ _ => []
  | DVar _ _ t _ => occs_ty [] RReference t
  | DFunction _ tps ps r _ =>
      let bound := map tparam_name tps in
      flat_map (occs_tparam bound) tps
      ++ flat_map (occs_param bound) ps
      ++ occs_ty bound RReference r
  | DClass _ ex ms =>
      match ex with Some t => occs_ty [] RClassExtends t | None => [] end
      ++ flat_map occs_class_member ms
  end
  ++ occs_code (implementation d).

(** The type names that come with the language and the browser, that the
    declarations use without declaring them. *)
Definition lib_types : list string :=
  ["Array"; "Record"; "Promise"; "Error"; "Event"; "Blob"; "RequestInit";
   "HTMLDivElement"].

(** The relationships between the declarations of [E]: [(a, k, b)] when the
    declaration [a] names the declaration [b] of [E] in position [k]. *)
Definition relationships (E : env) : list (string * relation_kind * string) :=
  flat_map
    (fun d =>
       flat_map
         (fun o =>
            if declared E (snd o)
            then [(decl_name d, fst o, unqualify "MusicKit" (snd o))]
            else [])
         (occs_decl d))
    E.

(** The names used in [E] that neither [E] nor the library declares. *)
Definition unresolved (E : env) : list string :=
  nodup string_dec
    (flat_map
       (fun d =>
          flat_map
            (fun o =>
               if declared E (snd o) || is_bound lib_types (snd o)
               then []
               else [unqualify "MusicKit" (snd o)])
            (occs_decl d))
       E).

Definition edge (E : env) (k : relation_kind -> bool) (a b : string) : Prop :=
  exists r, In (a, r, b) (relationships E) /\ k r = true.

Definition any_kind (_ : relation_kind) : bool := true.
Definition extension (k : relation_kind) : bool :=
  match k with RExtends | RClassExtends => true | _ => false end.

(** A cycle: a declaration that reaches itself along one or more edges. *)
Definition cyclic (E : env) (k : relation_kind -> bool) : Prop :=
  exists a, clos_trans string (edge E k) a a.

(** ** Interfaces: members, inheritance, [keyof], indexed access *)

Definition member_name (m : member) : option string :=
  match m with
  | MProp _ n _ _ | MMethod n _ _ _ => Some n
  | MIndex _ _ _ => None
  end.

Definition has_name (n : string) (m : member) : bool :=
  match member_name m with Some n' => n' =? n | None => false end.

Definition find_member (n : string) (ms : list member) : option member :=
  find (has_name n) ms.

Definition redeclared (ms : list member) (m : member) : bool :=
  match member_name m with
  | Some n => existsb (has_name n) ms
  | None => false
  end.

Definition ref_name (t : ty) : list string :=
  match t with TRef n _ => [unqualify "MusicKit" n] | _ => [] end.

(** The interfaces named in the [extends] clause. *)
Definition bases (d : decl) : list string :=
  match d with
  | DInterface _ _ ex _ => flat_map ref_name ex
  | _ => []
  end.

(** The members of an interface: its own, then those of its bases that it
    does not declare again.  [fuel] bounds the length of [extends] chains. *)
Fixpoint members_of (fuel : nat) (E : env) (n : string) : list member :=
  match fuel with
  | 0 => []
  | S fuel' =>
      match lookup E n with
      | Some (DInterface _ _ ex ms as d) =>
          ms ++ filter (fun m => negb (redeclared ms m))
                       (flat_map (members_of fuel' E) (bases d))
      | _ => []
      end
  end.

Definition members (E : env) (n : string) : list member :=
  members_of (length E) E n.

(** [keyof I]: the names of the properties and methods of [I]. *)
Definition keys (ms : list member) : list string :=
  flat_map (fun m => match member_name m with Some n => [n] | None => [] end) ms.

(** The type read from an optional property includes [undefined]. *)
Definition with_undefined (t : ty) : ty :=
  match t with
  | TUndefined => TUndefined
  | TUnion alts =>
      if existsb (fun a => match a with TUndefined => true | _ => false end) alts
      then t else TUnion (alts ++ [TUndefined])
  | _ => TUnion [t; TUndefined]
  end.

Definition read_type (m : member) : option ty :=
  match m with
  | MProp _ _ o t => Some (if o then with_undefined t else t)
  | MMethod _ _ ps r => Some (TFun ps r)
  | MIndex _ _ t => Some t
  end.

(** [I["k"]] for an interface [I] of [E]. *)
Definition index_type (E : env) (o i : ty) : option ty :=
  match o, i with
  | TRef n [], TStrLit k =>
      match find_member k (members E n) with
      | Some m => read_type m
      | None => None
      end
  | _, _ => None
  end.

(** ** Substitution and mapped types *)

(** [subst x r t]: the type [t] with the type parameter [x] replaced by [r]. *)
Fixpoint subst (x : string) (r : ty) (t : ty) : ty :=
  match t with
  | TString | TNumber | TBoolean | TAny | TUnknown | TVoid | TUndefined | TNull
  | TStrLit _ | TNumLit _ => t
  | TRef n args =>
      match args with
      | [] => if n =? x then r else t
      | _ => TRef n (map (subst x r) args)
      end
  | TArray e => TArray (subst x r e)
  | TTuple es => TTuple (map (subst x r) es)
  | TUnion alts => TUnion (map (subst x r) alts)
  | TInter parts => TInter (map (subst x r) parts)
  | TObj ms => TObj (map (subst_member x r) ms)
  | TFun ps ret => TFun (map (subst_param x r) ps) (subst x r ret)
  | TIndexed o i => TIndexed (subst x r o) (subst x r i)
  | TKeyof u => TKeyof (subst x r u)
  | TMapped k d o b =>
      TMapped k (subst x r d) o (if k =? x then b else subst x r b)
  end
with subst_member (x : string) (r : ty) (m : member) : member :=
  match m with
  | MProp ro n o t => MProp ro n o (subst x r t)
  | MMethod n tps ps ret =>
      if is_bound (map tparam_name tps) x then m
      else MMethod n tps (map (subst_param x r) ps) (subst x r ret)
  | MIndex k kt t => MIndex k (subst x r kt) (subst x r t)
  end
with subst_param (x : string) (r : ty) (p : param) : param :=
  match p with Param n o t => Param n o (subst x r t) end.

(** The keys a union of string literals stands for, through aliases. *)
Fixpoint literal_keys (fuel : nat) (E : env) (t : ty) : option (list string) :=
  match fuel with
  | 0 => None
  | S fuel' =>
      match t with
      | TStrLit s => Some [s]
      | TUnion alts =>
          fold_right
            (fun a acc =>
               match literal_keys fuel' E a, acc with
               | Some ks, Some ks' => Some (ks ++ ks')
               | _, _ => None
               end)
            (Some []) alts
      | TRef n [] =>
          match lookup E n with
          | Some (DAlias _ [] u) => literal_keys fuel' E u
          | _ => None
          end
      | TKeyof (TRef n []) =>
          match lookup E n with
          | Some (DInterface _ _ _ _) => Some (keys (members E n))
          | _ => None
          end
      | _ => None
      end
  end.

(** The object type a mapped type stands for.  Over [keyof I] the mapping is
    homomorphic: each property of [I] yields a property of the same name that
    keeps its [readonly] and its [?], and [?] on the mapping makes all of them
    optional.  Over any other key set each key yields a fresh property. *)
Definition mapped_member (x : string) (opt : bool) (body : ty) (m : member) : member :=
  match m with
  | MProp ro k o _ => MProp ro k (o || opt) (subst x (TStrLit k) body)
  | MMethod k _ _ _ => MProp false k opt (subst x (TStrLit k) body)
  | MIndex k kt _ => MIndex k kt (subst x kt body)
  end.

Definition expand_mapped (E : env) (t : ty) : option (list member) :=
  match t with
  | TMapped x (TKeyof (TRef n [])) opt body =>
      match lookup E n with
      | Some (DInterface _ _ _ _) => Some (map (mapped_member x opt body) (members E n))
      | _ => None
      end
  | TMapped x dom opt body =>
      match literal_keys (length E) E dom with
      | Some ks => Some (map (fun k => MProp false k opt (subst x (TStrLit k) body)) ks)
      | None => None
      end
  | _ => None
  end.

(** The members of a named type: of an interface, or of an alias of a
    mapped or of an object type. *)
Definition shape (E : env) (n : string) : option (list member) :=
  match lookup E n with
  | Some (DInterface _ _ _ _) => Some (members E n)
  | Some (DAlias _ _ (TObj ms)) => Some ms
  | Some (DAlias _ _ (TMapped x d o b)) => expand_mapped E (TMapped x d o b)
  | _ => None
  end.

(** ** Assignability

    [assignable fuel E s t] decides whether a value of type [s] may be
    assigned where [t] is expected, on the primitive types, the literal
    types, unions, enums and aliases of these.  The answer is [None] outside
    that fragment (object, function and generic types) and when [fuel], which
    bounds the unfolding of aliases, runs out. *)

(** All of the answers are yes / one of the answers is yes. *)
Definition all_yes (l : list (option bool)) : option bool :=
  if existsb (fun o => match o with Some false => true | _ => false end) l then Some false
  else if forallb (fun o => match o with Some true => true | _ => false end) l then Some true
  else None.

Definition some_yes (l : list (option bool)) : option bool :=
  if existsb (fun o => match o with Some true => true | _ => false end) l then Some true
  else if forallb (fun o => match o with Some false => true | _ => false end) l then Some false
  else None.

Definition is_basic (t : ty) : bool :=
  match t with
  | TString | TNumber | TBoolean | TVoid | TUndefined | TNull
  | TStrLit _ | TNumLit _ => true
  | _ => false
  end.

(** Between primitive and literal types. *)
Definition basic_assignable (s t : ty) : bool :=
  match s, t with
  | TString, TString | TNumber, TNumber | TBoolean, TBoolean
  | TVoid, TVoid | TUndefined, TUndefined | TNull, TNull
  | TUndefined, TVoid => true
  | TStrLit _, TString | TNumLit _, TNumber => true
  | TStrLit a, TStrLit b => a =? b
  | TNumLit a, TNumLit b => (a =? b)%Z
  | _, _ => false
  end.

Fixpoint assignable (fuel : nat) (E : env) (s t : ty) : option bool :=
  match fuel with
  | 0 => None
  | S fuel' =>
      match s, t with
      | _, TAny | _, TUnknown | TAny, _ => Some true
      | TUnion alts, _ => all_yes (map (fun a => assignable fuel' E a t) alts)
      | TRef n [], _ =>
          match lookup E n, t with
          | Some (DAlias _ [] u), _ => assignable fuel' E u t
          | Some (DEnum _ _), TNumber => Some true
          | Some (DEnum e _), TRef n' [] =>
              if e =? unqualify "MusicKit" n' then Some true else None
          | Some (DEnum _ _), TUnion alts =>
              some_yes (map (fun a => assignable fuel' E s a) alts)
          | _, _ => None
          end
      | _, TUnion alts => some_yes (map (fun a => assignable fuel' E s a) alts)
      | _, TRef n [] =>
          match lookup E n with
          | Some (DAlias _ [] u) => assignable fuel' E s u
          | _ => None
          end
      | _, _ =>
          if is_basic s && is_basic t then Some (basic_assignable s t) else None
      end
  end.

(** Fuel for the declarations at hand: no chain of aliases is longer than
    the number of declarations. *)
Definition assignable_in (E : env) (s t : ty) : option bool :=
  assignable (3 + length E) E s t.

(** The declared type of the property [p] of the interface [i]. *)
Definition property_type (E : env) (i p : string) : option ty :=
  match find_member p (members E i) with
  | Some (MProp _ _ _ t) => Some t
  | _ => None
  end.

(** [accepts E i p s]: the assignment [x.p = v], for [x : i] and [v : s],
    type-checks. *)
Definition accepts (E : env) (i p : string) (s : ty) : option bool :=
  match property_type E i p with
  | Some t => assignable_in E s t
  | None => None
  end.

(** ** Compatibility of an interface with its bases

    An interface may declare again a property of a base only with a type
    assignable to the base's, and may not make a required property optional.
    [Some true] is a definite conflict, [Some false] definite compatibility. *)
Definition property_conflict (E : env) (derived base : member) : option bool :=
  match derived, base with
  | MProp _ _ o t, MProp _ _ o' t' =>
      if o && negb o' then Some true
      else option_map negb
             (assignable_in E (if o then with_undefined t else t)
                              (if o' then with_undefined t' else t'))
  | _, _ => None
  end.

(** The pairs (base, property) at which [d] conflicts with a base. *)
Definition extension_conflicts (E : env) (d : decl) : list (string * string) :=
  match d with
  | DInterface _ _ _ ms =>
      flat_map
        (fun b =>
           flat_map
             (fun m =>
                match member_name m with
                | Some n =>
                    match find_member n (members E b) with
                    | Some m' =>
                        match property_conflict E m m' with
                        | Some true => [(b, n)]
                        | _ => []
                        end
                    | None => []
                    end
                | None => []
                end)
             ms)
        (bases d)
  | _ => []
  end.

Definition ill_extended (E : env) : list (string * (string * string)) :=
  flat_map (fun d => map (fun c => (decl_name d, c)) (extension_conflicts E d)) E.

(** Part of what the type checker demands of a declaration set: no interface
    conflicts with a base. *)
Definition extensions_consistent (E : env) : bool :=
  match ill_extended E with [] => true | _ => false end.

(** ** Files, classes and the extension hierarchy *)

(** A file of declarations only: reference directives and ambient blocks of
    the namespace [MusicKit]. *)
Definition declaration_item (i : item) : bool :=
  match i with
  | IReference _ => true
  | INamespace true n _ => n =? "MusicKit"
  | INamespace false _ _ | IStatement _ => false
  end.

Definition declaration_file (f : file) : bool := forallb declaration_item (f_items f).

Definition is_reference (i : item) : bool :=
  match i with IReference _ => true | _ => false end.

(** The static and the instance fields of a class, with their types. *)
Definition static_fields (d : decl) : list (string * ty) :=
  match d with
  | DClass _ _ ms =>
      flat_map (fun m => match m with CProp true n _ t _ => [(n, t)] | _ => [] end) ms
  | _ => []
  end.

Definition instance_fields (d : decl) : list (string * ty) :=
  match d with
  | DClass _ _ ms =>
      flat_map (fun m => match m with CProp false n _ t _ => [(n, t)] | _ => [] end) ms
  | _ => []
  end.

Definition class_methods (d : decl) : list string :=
  match d with
  | DClass _ _ ms =>
      flat_map (fun m => match m with CMethod _ n _ _ _ => [n] | _ => [] end) ms
  | _ => []
  end.

(** The classes that extend the built-in [Error]. *)
Definition error_classes (E : env) : list string :=
  flat_map
    (fun d =>
       match d with
       | DClass n (Some (TRef "Error" [])) _ => [n]
       | _ => []
       end)
    E.

(** The global variables a declaration set declares. *)
Definition globals (E : env) : list (binding * string * option expr) :=
  flat_map (fun d => match d with DVar k n _ i => [(k, n, i)] | _ => [] end) E.

(** The length of the longest [extends] chain that starts at [n]. *)
Fixpoint extends_depth (fuel : nat) (E : env) (n : string) : nat :=
  match fuel with
  | 0 => 0
  | S fuel' =>
      match lookup E n with
      | Some d =>
          fold_right Nat.max 0 (map (fun b => S (extends_depth fuel' E b)) (bases d))
      | None => 0
      end
  end.

Definition depth (E : env) (n : string) : nat := extends_depth (length E) E n.

(** Every edge of kind [k] goes to a declaration of smaller depth. *)
Definition depth_decreases (E : env) (k : relation_kind -> bool) : bool :=
  forallb
    (fun r =>
       match r with
       | (a, kind, b) => if k kind then Nat.ltb (depth E b) (depth E a) else true
       end)
    (relationships E).

(** The kinds of relationship that occur in [E]. *)
Definition kinds (E : env) : list relation_kind :=
  filter
    (fun k => existsb (fun r => relation_kind_eqb (snd (fst r)) k) (relationships E))
    [RExtends; RClassExtends; RMapped; RUnion; RReference; RTypeArgument;
     RIntersection; RIndexedAccess; RKeyof; RCall; RNew; RAssign; RRead].

(** Interface extension, mapped types and union membership. *)
Definition three_forms : list relation_kind := [RExtends; RMapped; RUnion].

Definition kind_in (l : list relation_kind) (k : relation_kind) : bool :=
  existsb (relation_kind_eqb k) l.

(** A declaration without implementation. *)
Definition bodiless (d : decl) : bool :=
  match implementation d with [] => true | _ :: _ => false end.

(** A property that is neither [readonly] nor a method or index signature. *)
Definition plain_property (m : member) : bool :=
  match m with MProp false _ _ _ => true | _ => false end.

Definition in_Z (n : Z) (l : list Z) : bool := existsb (Z.eqb n) l.

Definition has_relationship (E : env) (a : string) (k : relation_kind) (b : string) : bool :=
  existsb
    (fun r =>
       match r with
       | (a', k', b') => (a' =? a) && relation_kind_eqb k' k && (b' =? b)
       end)
    (relationships E).

(** The static error-code constants of a class, by name. *)
Definition constant_names (d : decl) : list string := map fst (static_fields d).

(** Name and optionality of the own properties of an interface. *)
Definition own_fields (d : decl) : list (string * bool) :=
  match d with
  | DInterface _ _ _ ms =>
      flat_map (fun m => match m with MProp _ n o _ => [(n, o)] | _ => [] end) ms
  | _ => []
  end.

(** The functions a declaration set declares, and the body of one. *)
Definition functions (E : env) : list string :=
  flat_map (fun d => match d with DFunction n _ _ _ _ => [n] | _ => [] end) E.

Definition function_body (E : env) (n : string) : option (option (list stmt)) :=
  match lookup E n with
  | Some (DFunction _ _ _ _ b) => Some b
  | _ => None
  end.

(** An enum member with a constant initialiser. *)
Definition initialised (m : string * option expr) : bool :=
  match snd m with Some (ENum _) => true | _ => false end.

Definition initialiser_value (m : string * option expr) : string * option Z :=
  (fst m, match snd m with Some e => const_value e | None => None end).

(** ** The hierarchy of interfaces *)


(** The interfaces [n] extends, directly or through others. *)
Fixpoint ancestors (fuel : nat) (E : env) (n : string) : list string :=
  match fuel with
  | 0 => []
  | S fuel' =>
      match lookup E n with
      | Some d => bases d ++ flat_map (ancestors fuel' E) (bases d)
      | None => []
      end
  end.

Definition descends (E : env) (n b : string) : bool :=
  existsb (String.eqb b) (ancestors (length E) E n).

(** A property that the interface [n] has, own or inherited, and requires. *)
Definition required_property (E : env) (n p : string) : bool :=
  match find_member p (members E n) with
  | Some (MProp _ _ false _) => true
  | _ => false
  end.

(** The string literals the property [type] of [n] admits; none when
    [type] is absent or is not a union of literals. *)
Definition discriminants (E : env) (n : string) : list string :=
  match property_type E n "type" with
  | Some t =>
      match literal_keys (length E) E t with
      | Some l => l
      | None => []
      end
  | None => []
  end.

(** The resource interface a key of [ResourceMap] is mapped to. *)
Definition resource_of_key (E : env) (k : string) : option string :=
  match property_type E "ResourceMap" k with
  | Some (TRef n []) =>
      if descends E n "BaseResource" then Some (unqualify "MusicKit" n) else None
  | _ => None
  end.

Definition is_readonly (E : env) (n p : string) : option bool :=
  match find_member p (members E n) with
  | Some (MProp ro _ _ _) => Some ro
  | _ => None
  end.

(** ** Well-formedness of signatures and member lists *)

(** Every member list written in a type: of the object types in it, at any
    depth. *)
Fixpoint member_lists_ty (t : ty) : list (list member) :=
  match t with
  | TString | TNumber | TBoolean | TAny | TUnknown | TVoid | TUndefined | TNull
  | TStrLit _ | TNumLit _ => []
  | TRef _ args => flat_map member_lists_ty args
  | TArray e => member_lists_ty e
  | TTuple es => flat_map member_lists_ty es
  | TUnion alts => flat_map member_lists_ty alts
  | TInter parts => flat_map member_lists_ty parts
  | TObj ms => ms :: flat_map member_lists_member ms
  | TFun ps r => flat_map member_lists_param ps ++ member_lists_ty r
  | TIndexed o i => member_lists_ty o ++ member_lists_ty i
  | TKeyof u => member_lists_ty u
  | TMapped _ d _ b => member_lists_ty d ++ member_lists_ty b
  end
with member_lists_member (m : member) : list (list member) :=
  match m with
  | MProp _ _ _ t => member_lists_ty t
  | MMethod _ _ ps r => flat_map member_lists_param ps ++ member_lists_ty r
  | MIndex _ kt t => member_lists_ty kt ++ member_lists_ty t
  end
with member_lists_param (p : param) : list (list member) :=
  match p with Param _ _ t => member_lists_ty t end.

Definition member_lists (d : decl) : list (list member) :=
  match d with
  | DInterface _ _ ex ms =>
      ms :: flat_map member_lists_member ms ++ flat_map member_lists_ty ex
  | DAlias _ _ t => member_lists_ty t
  | DEnum _ _ => []
  | DVar _ _ t _ => member_lists_ty t
  | DFunction _ _ ps r _ => flat_map member_lists_param ps ++ member_lists_ty r
  | DClass _ _ ms =>
      flat_map (fun m => match m with
                         | CProp _ _ _ t _ => member_lists_ty t
                         | CMethod _ _ ps r _ =>
                             flat_map member_lists_param ps ++ member_lists_ty r
                         end) ms
  end.

(** The names a declaration binds inside itself: the members of a class or
    of an enum. *)
Definition inner_names (d : decl) : list string :=
  match d with
  | DClass _ _ ms =>
      map (fun m => match m with CProp _ n _ _ _ | CMethod _ n _ _ _ => n end) ms
  | DEnum _ ms => map fst ms
  | _ => []
  end.

(** Every parameter list written in a type, at any depth. *)
Fixpoint param_lists_ty (t : ty) : list (list param) :=
  match t with
  | TString | TNumber | TBoolean | TAny | TUnknown | TVoid | TUndefined | TNull
  | TStrLit _ | TNumLit _ => []
  | TRef _ args => flat_map param_lists_ty args
  | TArray e => param_lists_ty e
  | TTuple es => flat_map param_lists_ty es
  | TUnion alts => flat_map param_lists_ty alts
  | TInter parts => flat_map param_lists_ty parts
  | TObj ms => flat_map param_lists_member ms
  | TFun ps r => ps :: flat_map param_lists_param ps ++ param_lists_ty r
  | TIndexed o i => param_lists_ty o ++ param_lists_ty i
  | TKeyof u => param_lists_ty u
  | TMapped _ d _ b => param_lists_ty d ++ param_lists_ty b
  end
with param_lists_member (m : member) : list (list param) :=
  match m with
  | MProp _ _ _ t => param_lists_ty t
  | MMethod _ _ ps r => ps :: flat_map param_lists_param ps ++ param_lists_ty r
  | MIndex _ kt t => param_lists_ty kt ++ param_lists_ty t
  end
with param_lists_param (p : param) : list (list param) :=
  match p with Param _ _ t => param_lists_ty t end.

Definition param_lists (d : decl) : list (list param) :=
  match d with
  | DInterface _ _ ex ms => flat_map param_lists_member ms ++ flat_map param_lists_ty ex
  | DAlias _ _ t => param_lists_ty t
  | DEnum _ _ => []
  | DVar _ _ t _ => param_lists_ty t
  | DFunction _ _ ps r _ => ps :: flat_map param_lists_param ps ++ param_lists_ty r
  | DClass _ _ ms =>
      flat_map (fun m => match m with
                         | CProp _ _ _ t _ => param_lists_ty t
                         | CMethod _ _ ps r _ =>
                             ps :: flat_map param_lists_param ps ++ param_lists_ty r
                         end) ms
  end.

Definition param_optional (p : param) : bool :=
  match p with Param _ o _ => o end.

(** No required parameter after an optional one. *)
Fixpoint required_first (ps : list param) : bool :=
  match ps with
  | [] => true
  | p :: rest =>
      if param_optional p then forallb param_optional rest else required_first rest
  end.

(** ** Type arguments *)

(** The generic references of a type: each name with the number of type
    arguments it is given.  Type parameters in scope are left out. *)
Fixpoint applications_ty (bound : list string) (t : ty) : list (string * nat) :=
  match t with
  | TString | TNumber | TBoolean | TAny | TUnknown | TVoid | TUndefined | TNull
  | TStrLit _ | TNumLit _ => []
  | TRef n args =>
      (if is_bound bound n then [] else [(n, length args)])
      ++ flat_map (applications_ty bound) args
  | TArray e => applications_ty bound e
  | TTuple es => flat_map (applications_ty bound) es
  | TUnion alts => flat_map (applications_ty bound) alts
  | TInter parts => flat_map (applications_ty bound) parts
  | TObj ms => flat_map (applications_member bound) ms
  | TFun ps r => flat_map (applications_param bound) ps ++ applications_ty bound r
  | TIndexed o i => applications_ty bound o ++ applications_ty bound i
  | TKeyof u => applications_ty bound u
  | TMapped x d _ b => applications_ty bound d ++ applications_ty (x :: bound) b
  end
with applications_member (bound : list string) (m : member) : list (string * nat) :=
  match m with
  | MProp _ _ _ t => applications_ty bound t
  | MMethod _ tps ps r =>
      let bound' := map tparam_name tps ++ bound in
      flat_map (applications_tparam bound') tps
      ++ flat_map (applications_param bound') ps
      ++ applications_ty bound' r
  | MIndex _ kt t => applications_ty bound kt ++ applications_ty bound t
  end
with applications_param (bound : list string) (p : param) : list (string * nat) :=
  match p with Param _ _ t => applications_ty bound t end
with applications_tparam (bound : list string) (p : tparam) : list (string * nat) :=
  match p with
  | TParam _ c d =>
      match c with Some t => applications_ty bound t | None => [] end
      ++ match d with Some t => applications_ty bound t | None => [] end
  end.

Definition applications (d : decl) : list (string * nat) :=
  match d with
  | DInterface _ tps ex ms =>
      let bound := map tparam_name tps in
      flat_map (applications_tparam bound) tps
      ++ flat_map (applications_ty bound) ex
      ++ flat_map (applications_member bound) ms
  | DAlias _ tps t =>
      let bound := map tparam_name tps in
      flat_map (applications_tparam bound) tps ++ applications_ty bound t
  | DEnum _ _ => []
  | DVar _ _ t _ => applications_ty [] t
  | DFunction _ tps ps r _ =>
      let bound := map tparam_name tps in
      flat_map (applications_tparam bound) tps
      ++ flat_map (applications_param bound) ps
      ++ applications_ty bound r
  | DClass _ ex ms =>
      match ex with Some t => applications_ty [] t | None => [] end
      ++ flat_map (fun m => match m with
                            | CProp _ _ _ t _ => applications_ty [] t
                            | CMethod _ _ ps r _ =>
                                flat_map (applications_param []) ps ++ applications_ty [] r
                            end) ms
  end.

Definition has_default (p : tparam) : bool :=
  match p with TParam _ _ (Some _) => true | TParam _ _ None => false end.

(** The least and the greatest number of type arguments a declared name
    takes: the parameters without default, and all of them. *)
Definition lib_arity : list (string * nat) :=
  [("Array", 1); ("Record", 2); ("Promise", 1); ("Error", 0); ("Event", 0);
   ("Blob", 0); ("RequestInit", 0); ("HTMLDivElement", 0)].

Definition arity (E : env) (n : string) : option (nat * nat) :=
  match lookup E n with
  | Some (DInterface _ tps _ _) | Some (DAlias _ tps _) =>
      Some (length (filter (fun p => negb (has_default p)) tps), length tps)
  | Some _ => Some (0, 0)
  | None =>
      match assoc n lib_arity with
      | Some k => Some (k, k)
      | None => None
      end
  end.

(** The names the files at hand use without declaring them; see
    [unresolved]. *)
Definition absent_names : list string := ["PlayParameters"; "MediaItem"; "Descriptor"].

Definition arity_respected (E : env) (a : string * nat) : bool :=
  match arity E (fst a) with
  | Some (lo, hi) => Nat.leb lo (snd a) && Nat.leb (snd a) hi
  | None => is_bound absent_names (unqualify "MusicKit" (fst a)) && Nat.eqb (snd a) 0
  end.

Definition resolves (E : env) (n : string) : bool :=
  declared E n || is_bound lib_types n || is_bound absent_names (unqualify "MusicKit" n).

Definition distinct (l : list string) : bool :=
  if list_eq_dec string_dec (nodup string_dec l) l then true else false.

Definition base_fields : list string := ["id"; "type"; "href"; "attributes"].

(** The property [p] of [n] has a type that is assignable to [string]. *)
Definition string_typed (E : env) (n p : string) : bool :=
  match property_type E n p with
  | Some t => match assignable_in E t TString with Some true => true | _ => false end
  | None => false
  end.

Definition is_interface (E : env) (n : string) : bool :=
  match lookup E n with Some (DInterface _ _ _ _) => true | _ => false end.

(** ** Methods and object literals *)

(** The parameters and the result of the method [m] of the interface [i]. *)
Definition method_signature (E : env) (i m : string) : option (list param * ty) :=
  match find_member m (members E i) with
  | Some (MMethod _ _ ps r) => Some (ps, r)
  | _ => None
  end.

Definition param_type (E : env) (i m p : string) : option ty :=
  match method_signature E i m with
  | Some (ps, _) =>
      match find (fun q => match q with Param n _ _ => n =? p end) ps with
      | Some (Param _ _ t) => Some t
      | None => None
      end
  | None => None
  end.

(** The required properties of [i] that an object literal with the
    properties [given] leaves out. *)
Definition missing_required (E : env) (i : string) (given : list string) : list string :=
  flat_map
    (fun m =>
       match m with
       | MProp _ n false _ => if existsb (String.eqb n) given then [] else [n]
       | _ => []
       end)
    (members E i).

Definition optional_property (m : member) : bool :=
  match m with MProp _ _ true _ => true | _ => false end.

(** The payload of the event [ev]: [Events[ev]]. *)
Definition payload (E : env) (ev : string) : option ty :=
  index_type E (Named "Events") (TStrLit ev).




(** An optional property whose declared type already includes [undefined]. *)
Definition optional_with_undefined (m : member) : bool :=
  match m with
  | MProp _ _ true (TUnion alts) =>
      existsb (fun a => match a with TUndefined => true | _ => false end) alts
  | _ => false
  end.

Definition option_bags : list string := ["AppConfiguration"; "Configuration"; "SetQueueOptions"].

(** The paths a file names in its reference directives. *)
Definition references (f : file) : list string :=
  flat_map (fun i => match i with IReference p => [p] | _ => [] end) (f_items f).

(** The path of a file relative to the directory of [index.d.ts], for the
    files that lie in it. *)
Definition sibling_path (f : file) : option string :=
  let dir := "src/types/" in
  if prefix dir (f_path f)
  then Some (substring (String.length dir) (String.length (f_path f) - String.length dir)
               (f_path f))
  else None.

(** [d] names [n] in position [k]. *)
Definition occurs (d : decl) (k : relation_kind) (n : string) : bool :=
  existsb (fun o => relation_kind_eqb (fst o) k && (snd o =? n)) (occs_decl d).

(** Case analysis on membership in an explicit list. *)
Ltac in_cases H :=
  repeat (destruct H as [<- | H]); [.. | contradiction H].

(** * Properties *)

(** ** Declaration files carry no code *)

Lemma declaration_item_emits_nothing (i : item) :
  declaration_item i = true -> emitted_item i = [].
Proof.
  destruct i as [p | [|] n ds | s]; simpl; intros H;
    solve [reflexivity | discriminate H].
Qed.

Lemma declaration_file_emits_nothing (f : file) :
  declaration_file f = true -> emitted f = [].
Proof.
  unfold declaration_file, emitted.
  induction (f_items f) as [|i rest IH]; simpl; intros H.
  - reflexivity.
  - apply andb_true_iff in H as [Hi Hrest].
    rewrite (declaration_item_emits_nothing i Hi), (IH Hrest). reflexivity.
Qed.

Lemma bodiless_no_implementation (ds : list decl) :
  forallb bodiless ds = true -> flat_map implementation ds = [].
Proof.
  induction ds as [|d ds IH]; simpl; intros H.
  - reflexivity.
  - apply andb_true_iff in H as [Hd Hds].
    unfold bodiless in Hd.
    destruct (implementation d); [exact (IH Hds) | discriminate Hd].
Qed.

Lemma declarations_only_no_code (f : file) :
  declaration_file f = true ->
  forallb bodiless (file_decls f) = true ->
  file_code f = [].
Proof.
  intros Hf Hd. unfold file_code.
  rewrite (declaration_file_emits_nothing f Hf), (bodiless_no_implementation _ Hd).
  reflexivity.
Qed.

Lemma repository_declaration_files :
  forallb declaration_file repository = true.
Proof. vm_compute. reflexivity. Qed.

Lemma repository_bodiless :
  forallb (fun f => forallb bodiless (file_decls f)) repository = true.
Proof. vm_compute. reflexivity. Qed.

Lemma repository_no_code (f : file) : In f repository -> file_code f = [].
Proof.
  intros Hin.
  apply declarations_only_no_code.
  - exact (proj1 (forallb_forall _ _) repository_declaration_files f Hin).
  - exact (proj1 (forallb_forall _ _) repository_bodiless f Hin).
Qed.

Lemma repository_no_exprs (f : file) : In f repository -> file_exprs f = [].
Proof.
  intros Hin. unfold file_exprs. rewrite (repository_no_code f Hin). reflexivity.
Qed.

Lemma in_file_decls_musickit (f : file) (d : decl) :
  In f repository -> In d (file_decls f) -> In d musickit.
Proof.
  intros Hf Hd. unfold musickit, namespace_decls.
  apply in_flat_map. exists f. split; [exact Hf|].
  unfold file_decls in Hd. apply in_flat_map in Hd as [i [Hi Hdi]].
  apply in_flat_map. exists i. split; [exact Hi|].
  pose proof (proj1 (forallb_forall _ _) repository_declaration_files f Hf) as Hdf.
  pose proof (proj1 (forallb_forall _ _) Hdf i Hi) as Hitem.
  destruct i as [p | [|] n ds | s]; simpl in *; try contradiction; try discriminate.
  rewrite Hitem. exact Hdi.
Qed.

(** ** Enum values *)

Lemma AuthStatus_ambient :
  assoc "AuthStatus" (enums repository) =
  Some (enum_values true
          [("NOT_DETERMINED", Some (ENum 0)); ("DENIED", Some (ENum 1));
           ("RESTRICTED", Some (ENum 2)); ("AUTHORIZED", Some (ENum 3))]).
Proof. reflexivity. Qed.

(** Where every member has a constant initialiser the values are the
    initialisers, whether the enum is ambient or not and whatever the
    counter. *)
Lemma enum_values_of_initialisers (ambient : bool) (auto : option Z)
    (ms : list (string * option expr)) :
  forallb initialised ms = true ->
  enum_values_from ambient auto ms = map initialiser_value ms.
Proof.
  revert auto. induction ms as [|[m init] ms IH]; simpl; intros auto H.
  - reflexivity.
  - apply andb_true_iff in H as [Hm Hms].
    unfold initialised in Hm. simpl in Hm.
    destruct init as [e|]; [|discriminate Hm].
    destruct e; try discriminate Hm.
    unfold initialiser_value at 1. simpl.
    rewrite (IH _ Hms). reflexivity.
Qed.

(** C9. The enum declarations pin AuthStatus.NOT_DETERMINED = 0, DENIED = 1,
    RESTRICTED = 2, AUTHORIZED = 3, PlaybackBitrate.HIGH = 256 and
    STANDARD = 64, and these are all the values pinned for the two enums. *)
Theorem enum_constants :
  enum_member repository "AuthStatus" "NOT_DETERMINED" = Some 0%Z /\
  enum_member repository "AuthStatus" "DENIED" = Some 1%Z /\
  enum_member repository "AuthStatus" "RESTRICTED" = Some 2%Z /\
  enum_member repository "AuthStatus" "AUTHORIZED" = Some 3%Z /\
  enum_member repository "PlaybackBitrate" "HIGH" = Some 256%Z /\
  enum_member repository "PlaybackBitrate" "STANDARD" = Some 64%Z /\
  pinned repository "AuthStatus" =
    [("NOT_DETERMINED", 0%Z); ("DENIED", 1%Z); ("RESTRICTED", 2%Z); ("AUTHORIZED", 3%Z)] /\
  pinned repository "PlaybackBitrate" = [("HIGH", 256%Z); ("STANDARD", 64%Z)].
Proof.
  unfold enum_member, pinned.
  rewrite AuthStatus_ambient.
  replace (assoc "PlaybackBitrate" (enums repository))
    with (Some (enum_values true [("HIGH", Some (ENum 256)); ("STANDARD", Some (ENum 64))]))
    by reflexivity.
  unfold enum_values.
  rewrite !enum_values_of_initialisers by reflexivity.
  repeat split; reflexivity.
Qed.

(** The members of [PlaybackStates] have no initialiser: in the ambient
    namespace they are computed members and no value is pinned. *)
Lemma PlaybackStates_unpinned : pinned repository "PlaybackStates" = [].
Proof. reflexivity. Qed.

(** ** Assignability to a union of numeric literals *)

Lemma some_yes_decided {A : Type} (p : A -> bool) (l : list A) :
  some_yes (map (fun a => Some (p a)) l) = Some (existsb p l).
Proof.
  unfold some_yes.
  assert (H : existsb (fun o : option bool => match o with Some true => true | _ => false end)
                (map (fun a => Some (p a)) l) = existsb p l /\
              forallb (fun o : option bool => match o with Some false => true | _ => false end)
                (map (fun a => Some (p a)) l) = negb (existsb p l)).
  { induction l as [|a l [IHe IHa]]; simpl; [split; reflexivity|].
    rewrite IHe, IHa. destruct (p a); split; reflexivity. }
  destruct H as [Hex Hall].
  rewrite Hex, Hall. destruct (existsb p l); reflexivity.
Qed.

Lemma assignable_basic_to_literals (fuel : nat) (E : env) (s : ty) (ms : list Z) :
  is_basic s = true ->
  assignable (S (S fuel)) E s (TUnion (map TNumLit ms)) =
  Some (existsb (fun m => basic_assignable s (TNumLit m)) ms).
Proof.
  intros Hs.
  rewrite <- (some_yes_decided (fun m => basic_assignable s (TNumLit m)) ms).
  destruct s; try discriminate Hs; cbn [assignable]; rewrite map_map; reflexivity.
Qed.

Lemma accepts_basic_literal_alias (E : env) (i p a a' : string) (ms : list Z) (s : ty) :
  is_basic s = true ->
  property_type E i p = Some (Named a) ->
  lookup E a = Some (DAlias a' [] (TUnion (map TNumLit ms))) ->
  accepts E i p s = Some (existsb (fun m => basic_assignable s (TNumLit m)) ms).
Proof.
  intros Hs Hp Ha. unfold accepts, assignable_in. rewrite Hp.
  change (3 + length E) with (S (S (S (length E)))).
  rewrite <- (assignable_basic_to_literals (length E) E s ms Hs).
  destruct s; try discriminate Hs; cbn [assignable]; rewrite Ha; reflexivity.
Qed.

Lemma in_Z_spec (n : Z) (l : list Z) : in_Z n l = true <-> In n l.
Proof.
  unfold in_Z. rewrite existsb_exists. split.
  - intros [m [Hin Heq]]. apply Z.eqb_eq in Heq. subst. exact Hin.
  - intros Hin. exists n. split; [exact Hin | apply Z.eqb_refl].
Qed.

Lemma Player_repeatMode_type :
  property_type musickit "Player" "repeatMode" = Some (Named "PlayerRepeatMode").
Proof. vm_compute. reflexivity. Qed.

Lemma Player_shuffleMode_type :
  property_type musickit "Player" "shuffleMode" = Some (Named "PlayerShuffleMode").
Proof. vm_compute. reflexivity. Qed.

Lemma PlayerRepeatMode_alias :
  lookup musickit "PlayerRepeatMode" =
  Some (DAlias "PlayerRepeatMode" [] (TUnion (map TNumLit [0; 1; 2]%Z))).
Proof. vm_compute. reflexivity. Qed.

Lemma PlayerShuffleMode_alias :
  lookup musickit "PlayerShuffleMode" =
  Some (DAlias "PlayerShuffleMode" [] (TUnion (map TNumLit [0; 1]%Z))).
Proof. vm_compute. reflexivity. Qed.

(** C10. [Player.repeatMode] accepts the numeric literals 0, 1 and 2 and
    [Player.shuffleMode] the literals 0 and 1; every other numeric literal,
    and the type [number] itself, is rejected. *)
Theorem Player_modes_admit_only_declared_values :
  (forall n : Z,
      accepts musickit "Player" "repeatMode" (TNumLit n) = Some (in_Z n [0; 1; 2]%Z)) /\
  (forall n : Z,
      accepts musickit "Player" "shuffleMode" (TNumLit n) = Some (in_Z n [0; 1]%Z)) /\
  (forall n : Z,
      ~ In n [0; 1; 2]%Z -> accepts musickit "Player" "repeatMode" (TNumLit n) = Some false) /\
  (forall n : Z,
      ~ In n [0; 1]%Z -> accepts musickit "Player" "shuffleMode" (TNumLit n) = Some false) /\
  accepts musickit "Player" "repeatMode" TNumber = Some false /\
  accepts musickit "Player" "shuffleMode" TNumber = Some false.
Proof.
  assert (Hr : forall n : Z,
             accepts musickit "Player" "repeatMode" (TNumLit n) = Some (in_Z n [0; 1; 2]%Z)).
  { intros n.
    exact (accepts_basic_literal_alias musickit _ _ _ _ _ (TNumLit n) eq_refl
             Player_repeatMode_type PlayerRepeatMode_alias). }
  assert (Hs : forall n : Z,
             accepts musickit "Player" "shuffleMode" (TNumLit n) = Some (in_Z n [0; 1]%Z)).
  { intros n.
    exact (accepts_basic_literal_alias musickit _ _ _ _ _ (TNumLit n) eq_refl
             Player_shuffleMode_type PlayerShuffleMode_alias). }
  refine (conj Hr (conj Hs (conj _ (conj _ (conj _ _))))).
  - intros n Hn. rewrite Hr. f_equal.
    destruct (in_Z n [0; 1; 2]%Z) eqn:Hin; [|reflexivity].
    apply in_Z_spec in Hin. contradiction.
  - intros n Hn. rewrite Hs. f_equal.
    destruct (in_Z n [0; 1]%Z) eqn:Hin; [|reflexivity].
    apply in_Z_spec in Hin. contradiction.
  - exact (accepts_basic_literal_alias musickit _ _ _ _ _ TNumber eq_refl
             Player_repeatMode_type PlayerRepeatMode_alias).
  - exact (accepts_basic_literal_alias musickit _ _ _ _ _ TNumber eq_refl
             Player_shuffleMode_type PlayerShuffleMode_alias).
Qed.

Lemma Player_modes_witness :
  accepts musickit "Player" "repeatMode" (TNumLit 2) = Some true /\
  accepts musickit "Player" "repeatMode" (TNumLit 3) = Some false /\
  accepts musickit "Player" "shuffleMode" (TNumLit 2) = Some false.
Proof.
  destruct Player_modes_admit_only_declared_values as [Hr [_ [Hr' [Hs' _]]]].
  split; [exact (Hr 2%Z)|].
  split.
  - apply Hr'. simpl. lia.
  - apply Hs'. simpl. lia.
Defined.

(** ** Mapped types *)

Section Mapped.

Variables (x : string) (opt : bool) (body : ty).

Lemma mapped_member_name (m : member) :
  member_name (mapped_member x opt body m) = member_name m.
Proof. destruct m; reflexivity. Qed.

Lemma keys_mapped (ms : list member) :
  keys (map (mapped_member x opt body) ms) = keys ms.
Proof.
  unfold keys. induction ms as [|m ms IH]; simpl.
  - reflexivity.
  - rewrite mapped_member_name, IH. reflexivity.
Qed.

Lemma find_member_mapped (k : string) (ms : list member) :
  find_member k (map (mapped_member x opt body) ms) =
  option_map (mapped_member x opt body) (find_member k ms).
Proof.
  unfold find_member. induction ms as [|m ms IH]; simpl.
  - reflexivity.
  - assert (Hn : has_name k (mapped_member x opt body m) = has_name k m).
    { unfold has_name. rewrite mapped_member_name. reflexivity. }
    rewrite Hn. destruct (has_name k m); [reflexivity | exact IH].
Qed.

End Mapped.

Lemma has_name_spec (k : string) (m : member) :
  has_name k m = true <-> member_name m = Some k.
Proof.
  unfold has_name. destruct (member_name m) as [n|].
  - rewrite String.eqb_eq. split; [intros -> | intros [= ->]]; reflexivity.
  - split; discriminate.
Qed.

Lemma in_keys_find (k : string) (ms : list member) :
  In k (keys ms) ->
  exists m, find_member k ms = Some m /\ In m ms /\ member_name m = Some k.
Proof.
  unfold keys, find_member. induction ms as [|m ms IH]; simpl; intros Hin.
  - contradiction.
  - destruct (has_name k m) eqn:Hk.
    + exists m. split; [reflexivity|]. split; [left; reflexivity|].
      apply has_name_spec. exact Hk.
    + apply in_app_or in Hin as [Hin | Hin].
      * exfalso. destruct (member_name m) as [n|] eqn:Hm; simpl in Hin; [|contradiction].
        destruct Hin as [-> | []].
        assert (has_name k m = true) by (apply has_name_spec; exact Hm).
        congruence.
      * destruct (IH Hin) as [m' [Hf [Hi Hn]]].
        exists m'. split; [exact Hf|]. split; [right; exact Hi | exact Hn].
Qed.

Lemma plain_property_shape (m : member) :
  plain_property m = true -> exists n o t, m = MProp false n o t.
Proof.
  destruct m as [[|] n o t | |]; simpl; intros H; try discriminate H.
  exists n, o, t. reflexivity.
Qed.

Lemma Relationships_shape :
  shape musickit "Relationships" =
  Some (map (mapped_member "K" true
               (TRef "Relationship" [TIndexed (Named "MusicKit.ResourceMap") (Named "K")]))
            (members musickit "ResourceMap")).
Proof. vm_compute. reflexivity. Qed.

Lemma ResourceMap_plain : forallb plain_property (members musickit "ResourceMap") = true.
Proof. vm_compute. reflexivity. Qed.

Lemma ResourceMap_keys_distinct : NoDup (keys (members musickit "ResourceMap")).
Proof.
  replace (keys (members musickit "ResourceMap"))
    with (nodup string_dec (keys (members musickit "ResourceMap")))
    by (vm_compute; reflexivity).
  apply NoDup_nodup.
Qed.

(** C8. [Relationships] has exactly the keys of [ResourceMap], and each key
    [K] is an optional property of type [Relationship<ResourceMap[K]>], where
    [ResourceMap[K]] is the type read from the property [K] of [ResourceMap]. *)
Theorem Relationships_is_image_of_ResourceMap :
  exists rs : list member,
    shape musickit "Relationships" = Some rs /\
    keys rs = keys (members musickit "ResourceMap") /\
    NoDup (keys rs) /\
    forall K : string,
      In K (keys (members musickit "ResourceMap")) ->
      find_member K rs =
        Some (prop_opt K
                (TRef "Relationship" [TIndexed (Named "MusicKit.ResourceMap") (TStrLit K)])) /\
      exists m : member,
        find_member K (members musickit "ResourceMap") = Some m /\
        index_type musickit (Named "MusicKit.ResourceMap") (TStrLit K) = read_type m.
Proof.
  eexists. split; [exact Relationships_shape|].
  split; [apply keys_mapped|].
  split; [rewrite keys_mapped; exact ResourceMap_keys_distinct|].
  intros K HK.
  destruct (in_keys_find K _ HK) as [m [Hf [Hi Hn]]].
  split.
  - rewrite find_member_mapped, Hf. simpl.
    pose proof (proj1 (forallb_forall _ _) ResourceMap_plain m Hi) as Hp.
    destruct (plain_property_shape m Hp) as [n [o [t ->]]].
    simpl in Hn. injection Hn as ->.
    simpl. rewrite orb_true_r. reflexivity.
  - exists m. split; [exact Hf|].
    unfold index_type.
    change (members musickit "MusicKit.ResourceMap") with (members musickit "ResourceMap").
    rewrite Hf. reflexivity.
Qed.

Lemma Relationships_witness :
  exists rs : list member,
    shape musickit "Relationships" = Some rs /\
    find_member "stations" rs =
      Some (prop_opt "stations"
              (TRef "Relationship"
                 [TIndexed (Named "MusicKit.ResourceMap") (TStrLit "stations")])) /\
    index_type musickit (Named "MusicKit.ResourceMap") (TStrLit "stations") =
      Some (Named "MusicKit.Stations").
Proof.
  destruct Relationships_is_image_of_ResourceMap as [rs [Hs [_ [_ H]]]].
  exists rs. split; [exact Hs|].
  assert (Hin : In "stations" (keys (members musickit "ResourceMap"))).
  { vm_compute. tauto. }
  destruct (H "stations" Hin) as [Hf _].
  split; [exact Hf | reflexivity].
Defined.

(** ** The graph of references between declarations *)

Lemma relation_kind_eqb_eq (a b : relation_kind) :
  relation_kind_eqb a b = true <-> a = b.
Proof.
  split.
  - destruct a, b; simpl; intros H; solve [reflexivity | discriminate H].
  - intros ->. destruct b; reflexivity.
Qed.

Lemma has_relationship_sound (E : env) (a : string) (k : relation_kind) (b : string) :
  has_relationship E a k b = true -> In (a, k, b) (relationships E).
Proof.
  unfold has_relationship. intros H.
  apply existsb_exists in H as [[[a' k'] b'] [Hin Heq]].
  apply andb_true_iff in Heq as [Heq Hb].
  apply andb_true_iff in Heq as [Ha Hk].
  apply String.eqb_eq in Ha, Hb. apply relation_kind_eqb_eq in Hk.
  subst. exact Hin.
Qed.

Lemma kind_in_spec (l : list relation_kind) (k : relation_kind) :
  kind_in l k = true <-> In k l.
Proof.
  unfold kind_in. rewrite existsb_exists. split.
  - intros [k' [Hin Heq]]. apply relation_kind_eqb_eq in Heq. subst. exact Hin.
  - intros Hin. exists k. split; [exact Hin | apply relation_kind_eqb_eq; reflexivity].
Qed.

(** A kind that labels a relationship of [E] is listed in [kinds E]. *)
Lemma relationship_kind_listed (E : env) (a : string) (k : relation_kind) (b : string) :
  In (a, k, b) (relationships E) -> In k (kinds E).
Proof.
  intros Hin. unfold kinds. apply filter_In. split.
  - destruct k; simpl; tauto.
  - apply existsb_exists. exists (a, k, b). split; [exact Hin|].
    apply relation_kind_eqb_eq. reflexivity.
Qed.

(** Where a rank decreases along every edge, it decreases along every path. *)
Lemma rank_decreases_along_paths (R : string -> string -> Prop) (rank : string -> nat) :
  (forall a b, R a b -> rank b < rank a) ->
  forall a b, clos_trans string R a b -> rank b < rank a.
Proof.
  intros Hstep a b Hpath.
  induction Hpath as [a b Hab | a b c _ IHab _ IHbc].
  - exact (Hstep a b Hab).
  - lia.
Qed.

Lemma depth_decreases_sound (E : env) (k : relation_kind -> bool) :
  depth_decreases E k = true ->
  forall a b, edge E k a b -> depth E b < depth E a.
Proof.
  unfold depth_decreases. intros H a b [r [Hin Hk]].
  pose proof (proj1 (forallb_forall _ _) H _ Hin) as Hr.
  simpl in Hr. rewrite Hk in Hr. apply Nat.ltb_lt. exact Hr.
Qed.

Lemma depth_decreases_acyclic (E : env) (k : relation_kind -> bool) :
  depth_decreases E k = true -> ~ cyclic E k.
Proof.
  intros H [a Hcycle].
  pose proof (rank_decreases_along_paths (edge E k) (depth E)
                (depth_decreases_sound E k H) a a Hcycle).
  lia.
Qed.

Lemma extension_hierarchy_acyclic : ~ cyclic musickit extension.
Proof. apply depth_decreases_acyclic. vm_compute. reflexivity. Qed.

Lemma Songs_references_Albums : In ("Songs", RTypeArgument, "Albums") (relationships musickit).
Proof. apply has_relationship_sound. vm_compute. reflexivity. Qed.

Lemma Albums_references_Songs : In ("Albums", RUnion, "Songs") (relationships musickit).
Proof. apply has_relationship_sound. vm_compute. reflexivity. Qed.

Lemma Songs_Albums_cycle : clos_trans string (edge musickit any_kind) "Songs" "Songs".
Proof.
  apply t_trans with (y := "Albums"); apply t_step.
  - exists RTypeArgument. split; [exact Songs_references_Albums | reflexivity].
  - exists RUnion. split; [exact Albums_references_Songs | reflexivity].
Qed.

Lemma musickit_kinds :
  kinds musickit =
  [RExtends; RMapped; RUnion; RReference; RTypeArgument; RIntersection;
   RIndexedAccess; RKeyof].
Proof. vm_compute. reflexivity. Qed.

Lemma musickit_bodiless (d : decl) : In d musickit -> implementation d = [].
Proof.
  intros Hin.
  assert (H : forallb bodiless musickit = true) by (vm_compute; reflexivity).
  pose proof (proj1 (forallb_forall _ _) H d Hin) as Hd.
  unfold bodiless in Hd. destruct (implementation d); [reflexivity | discriminate Hd].
Qed.

(** The claim of C5 as it is stated, that every relationship has one of the
    three forms, fails: [Player.queue] has the type [Queue], a plain
    reference from one declaration to another. *)
Lemma not_only_three_forms :
  In ("Player", RReference, "Queue") (relationships musickit) /\
  ~ In RReference three_forms /\
  ~ (forall a k b, In (a, k, b) (relationships musickit) -> In k three_forms).
Proof.
  assert (Hin : In ("Player", RReference, "Queue") (relationships musickit)).
  { apply has_relationship_sound. vm_compute. reflexivity. }
  assert (Hno : ~ In RReference three_forms).
  { unfold three_forms. simpl. intros [H | [H | [H | []]]]; discriminate H. }
  split; [exact Hin|]. split; [exact Hno|].
  intros Hall. exact (Hno (Hall _ _ _ Hin)).
Qed.

(** C5, amended.  No file carries code, so nothing flows between the
    declarations at run time.  Every relationship between declarations is a
    position inside a type: interface extension, a mapped type, a union, or a
    plain reference, a type argument, an intersection, an indexed access or a
    [keyof]; the three forms the claim names all occur. *)
Theorem relationships_are_compile_time :
  (forall f, In f repository -> file_code f = []) /\
  (forall a k b,
      In (a, k, b) (relationships musickit) ->
      compile_time k = true /\
      In k [RExtends; RMapped; RUnion; RReference; RTypeArgument; RIntersection;
            RIndexedAccess; RKeyof]) /\
  In ("Songs", RExtends, "Resource") (relationships musickit) /\
  In ("Relationships", RMapped, "ResourceMap") (relationships musickit) /\
  property_type musickit "Songs" "type" = Some (TStrLit "songs").
Proof.
  split; [exact repository_no_code|].
  split.
  - intros a k b Hin.
    pose proof (relationship_kind_listed musickit a k b Hin) as Hk.
    rewrite musickit_kinds in Hk. split; [|exact Hk].
    simpl in Hk.
    destruct Hk as [<- | [<- | [<- | [<- | [<- | [<- | [<- | [<- | []]]]]]]]];
      reflexivity.
  - split; [apply has_relationship_sound; vm_compute; reflexivity|].
    split; [apply has_relationship_sound; vm_compute; reflexivity|].
    vm_compute. reflexivity.
Qed.

Lemma relationships_witness :
  file_code MusicKit.MusicKit_API_d_ts = [] /\
  compile_time RIndexedAccess = true /\
  In ("LibraryAlbums", RIndexedAccess, "Albums") (relationships musickit).
Proof.
  destruct relationships_are_compile_time as [Hcode [Hrel _]].
  assert (Hin : In ("LibraryAlbums", RIndexedAccess, "Albums") (relationships musickit)).
  { apply has_relationship_sound. vm_compute. reflexivity. }
  split.
  - apply Hcode. simpl. tauto.
  - split; [exact (proj1 (Hrel _ _ _ Hin)) | exact Hin].
Defined.

(** The claim of C6 as it is stated fails on its own example: [Songs] names
    [Albums] in its relationships and [Albums] names [Songs] in its tracks,
    a cycle in the graph of references. *)
Lemma reference_graph_is_cyclic :
  In ("Songs", RTypeArgument, "Albums") (relationships musickit) /\
  In ("Albums", RUnion, "Songs") (relationships musickit) /\
  cyclic musickit any_kind.
Proof.
  split; [exact Songs_references_Albums|].
  split; [exact Albums_references_Songs|].
  exists "Songs". exact Songs_Albums_cycle.
Qed.

(** C6, amended.  The graph of references between declarations has a cycle
    through [Songs] and [Albums].  The [extends] hierarchy has none, and no
    declaration in it or elsewhere has an implementation; the globals
    [errors], [version] and [__log] are [const] declarations without
    initialiser; no file holds a call. *)
Theorem declaration_patterns :
  cyclic musickit any_kind /\
  ~ cyclic musickit extension /\
  (forall d, In d musickit -> implementation d = []) /\
  map (fun g => snd (fst g)) (globals musickit) = ["errors"; "version"; "__log"] /\
  (forall k n i, In (k, n, i) (globals musickit) -> k = Const /\ i = None) /\
  (forall f, In f repository -> file_code f = [] /\ filter is_call (file_exprs f) = []).
Proof.
  split; [exists "Songs"; exact Songs_Albums_cycle|].
  split; [exact extension_hierarchy_acyclic|].
  split; [exact musickit_bodiless|].
  split; [reflexivity|].
  split.
  - intros k n i Hin.
    change (globals musickit)
      with [(Const, "errors", @None expr); (Const, "version", None); (Const, "__log", None)]
      in Hin.
    simpl in Hin.
    destruct Hin as [H | [H | [H | []]]]; injection H as <- <- <-; split; reflexivity.
  - intros f Hin. rewrite (repository_no_exprs f Hin).
    split; [exact (repository_no_code f Hin) | reflexivity].
Qed.

Lemma declaration_patterns_witness :
  implementation MusicKit.errors = [] /\
  filter is_call (file_exprs MusicKit.MusicKit_d_ts) = [].
Proof.
  destruct declaration_patterns as [_ [_ [Himpl [_ [_ Hcall]]]]].
  split.
  - apply Himpl. vm_compute. tauto.
  - apply (Hcall MusicKit.MusicKit_d_ts). simpl. tauto.
Defined.

(** ** What the repository holds *)

Lemma in_repository_declaration_item (f : file) (i : item) :
  In f repository -> In i (f_items f) -> declaration_item i = true.
Proof.
  intros Hf Hi.
  pose proof (proj1 (forallb_forall _ _) repository_declaration_files f Hf) as Hdf.
  exact (proj1 (forallb_forall _ _) Hdf i Hi).
Qed.

Lemma repository_emits_nothing (f : file) : In f repository -> emitted f = [].
Proof.
  intros Hf. apply declaration_file_emits_nothing.
  exact (proj1 (forallb_forall _ _) repository_declaration_files f Hf).
Qed.

(** C1. No declaration of any file has an implementation: interfaces, type
    aliases and enums have none by their form, and every constant, class
    field and function, [configure], [getInstance], [formatArtworkURL],
    [formattedMilliseconds], [formattedSeconds], [generateEmbedCode] and
    [formatMediaTime] among them, is declared without initialiser or body.
    No file emits code or contains any. *)
Theorem declarations_have_no_implementation :
  (forall f d, In f repository -> In d (file_decls f) -> implementation d = []) /\
  (forall f, In f repository -> emitted f = [] /\ file_code f = []) /\
  functions musickit =
    ["configure"; "getInstance"; "formatArtworkURL"; "formattedMilliseconds";
     "formattedSeconds"; "generateEmbedCode"; "formatMediaTime"] /\
  (forall n, In n (functions musickit) -> function_body musickit n = Some None).
Proof.
  split.
  { intros f d Hf Hd. apply musickit_bodiless.
    exact (in_file_decls_musickit f d Hf Hd). }
  split.
  { intros f Hf. split; [exact (repository_emits_nothing f Hf) | exact (repository_no_code f Hf)]. }
  assert (Hfun : functions musickit =
                 ["configure"; "getInstance"; "formatArtworkURL"; "formattedMilliseconds";
                  "formattedSeconds"; "generateEmbedCode"; "formatMediaTime"])
    by (vm_compute; reflexivity).
  split; [exact Hfun|].
  intros n Hn. rewrite Hfun in Hn. simpl in Hn.
  destruct Hn as [<- | [<- | [<- | [<- | [<- | [<- | [<- | []]]]]]]];
    vm_compute; reflexivity.
Qed.

Lemma declarations_have_no_implementation_witness :
  implementation MusicKit.configure = [] /\
  emitted MusicKit.index_d_ts = [] /\
  function_body musickit "formatMediaTime" = Some None.
Proof.
  destruct declarations_have_no_implementation as [Himpl [Hfile [_ Hbody]]].
  split.
  - apply (Himpl MusicKit.MusicKit_d_ts).
    + simpl. tauto.
    + vm_compute. tauto.
  - split.
    + apply Hfile. simpl. tauto.
    + apply Hbody. vm_compute. tauto.
Defined.

(** C3. [MKError] is the one class that extends [Error].  Its static
    members are the nineteen constants [ACCESS_DENIED] to [UNSUPPORTED_ERROR],
    each of type [string]; its other members are the instance fields
    [errorCode] and [description].  The class has no method and no
    initialiser, and no file holds a [throw] or a [try]. *)
Theorem error_surface_is_MKError_constants :
  error_classes musickit = ["MKError"] /\
  lookup musickit "MKError" = Some MusicKit.MKError /\
  instance_fields MusicKit.MKError =
    [("errorCode", TString); ("description", TUnion [TString; TUndefined])] /\
  constant_names MusicKit.MKError =
    ["ACCESS_DENIED"; "AUTHORIZATION_ERROR"; "CONFIGURATION_ERROR"; "CONTENT_RESTRICTED";
     "INVALID_ARGUMENTS"; "MEDIA_CERTIFICATE"; "MEDIA_DESCRIPTOR"; "MEDIA_KEY";
     "MEDIA_LICENSE"; "MEDIA_PLAYBACK"; "MEDIA_SESSION"; "NETWORK_ERROR"; "NOT_FOUND";
     "QUOTA_EXCEEDED"; "SERVER_ERROR"; "SERVICE_UNAVAILABLE"; "SUBSCRIPTION_ERROR";
     "UNKNOWN_ERROR"; "UNSUPPORTED_ERROR"] /\
  (forall c t, In (c, t) (static_fields MusicKit.MKError) -> t = TString) /\
  class_methods MusicKit.MKError = [] /\
  implementation MusicKit.MKError = [] /\
  (forall f, In f repository ->
     file_code f = [] /\
     filter is_throw (file_code f) = [] /\
     filter is_try (file_code f) = []).
Proof.
  split; [vm_compute; reflexivity|].
  split; [vm_compute; reflexivity|].
  split; [reflexivity|].
  split; [reflexivity|].
  split.
  { intros c t Hin.
    assert (H : forallb (fun ct => match snd ct with TString => true | _ => false end)
                  (static_fields MusicKit.MKError) = true) by reflexivity.
    pose proof (proj1 (forallb_forall _ _) H (c, t) Hin) as Ht.
    simpl in Ht. destruct t; solve [reflexivity | discriminate Ht]. }
  split; [reflexivity|].
  split; [reflexivity|].
  intros f Hf. rewrite (repository_no_code f Hf). repeat split.
Qed.

Lemma error_surface_witness :
  filter is_throw (file_code MusicKit.MKError_file) = [] /\
  In ("QUOTA_EXCEEDED", TString) (static_fields MusicKit.MKError).
Proof.
  destruct error_surface_is_MKError_constants as [_ [_ [_ [_ [Hty [_ [_ Hcode]]]]]]].
  assert (Hin : In MusicKit.MKError_file repository) by (simpl; tauto).
  split; [exact (proj1 (proj2 (Hcode _ Hin)))|].
  assert (Hq : exists t, In ("QUOTA_EXCEEDED", t) (static_fields MusicKit.MKError)).
  { exists TString. vm_compute. tauto. }
  destruct Hq as [t Ht]. rewrite <- (Hty _ _ Ht). exact Ht.
Defined.

(** C4. No file holds a [new], an assignment or a branch: nothing in the
    repository creates, changes or checks a value of a declared shape, and no
    declaration has an initialiser or a body.  A shape is the list of its
    fields with their types and their [?]: for [BaseResource], [id], [type],
    [href] and [attributes] are required and [relationships], [meta] and
    [views] optional; [Songs] redeclares [id], [type] and [attributes] as
    required and [relationships] as optional. *)
Theorem shapes_are_only_described :
  (forall f, In f repository ->
     filter is_new (file_exprs f) = [] /\
     filter is_assign (file_exprs f) = [] /\
     filter is_branch (file_code f) = []) /\
  (forall d, In d musickit -> implementation d = []) /\
  own_fields MusicKit.BaseResource =
    [("id", false); ("type", false); ("href", false); ("attributes", false);
     ("relationships", true); ("meta", true); ("views", true)] /\
  own_fields MusicKit.Songs =
    [("id", false); ("type", false); ("attributes", false); ("relationships", true)] /\
  bases MusicKit.Songs = ["Resource"].
Proof.
  split.
  { intros f Hf. rewrite (repository_no_exprs f Hf), (repository_no_code f Hf).
    repeat split. }
  split; [exact musickit_bodiless|].
  repeat split.
Qed.

Lemma shapes_witness :
  filter is_new (file_exprs MusicKit.MusicKit_API_d_ts) = [] /\
  implementation MusicKit.Songs = [].
Proof.
  destruct shapes_are_only_described as [Hcode [Himpl _]].
  split.
  - apply Hcode. simpl. tauto.
  - apply Himpl. vm_compute. tauto.
Defined.

Lemma musickit_names_distinct : NoDup (map decl_name musickit).
Proof.
  replace (map decl_name musickit) with (nodup string_dec (map decl_name musickit))
    by (vm_compute; reflexivity).
  apply NoDup_nodup.
Qed.

(** C7. Every item of every file is a reference directive or an ambient
    block of the namespace [MusicKit], and [index.d.ts] holds reference
    directives only.  What the repository exposes are the 95 distinct names
    declared in that namespace.  No file emits code, reads a variable or
    calls a function, so nothing is read from or written to the environment,
    the command line, a store or the network. *)
Theorem repository_surface_is_declarations :
  (forall f i, In f repository -> In i (f_items f) -> declaration_item i = true) /\
  forallb is_reference (f_items MusicKit.index_d_ts) = true /\
  length musickit = 95 /\
  NoDup (map decl_name musickit) /\
  (forall f, In f repository ->
     emitted f = [] /\
     filter is_read (file_exprs f) = [] /\
     filter is_call (file_exprs f) = []).
Proof.
  split; [exact in_repository_declaration_item|].
  split; [reflexivity|].
  split; [vm_compute; reflexivity|].
  split; [exact musickit_names_distinct|].
  intros f Hf. rewrite (repository_no_exprs f Hf).
  split; [exact (repository_emits_nothing f Hf) | split; reflexivity].
Qed.

Lemma repository_surface_witness :
  declaration_item (INamespace true "MusicKit" [MusicKit.Queue]) = true /\
  emitted MusicKit.MusicKit_Queue_d_ts = [].
Proof.
  destruct repository_surface_is_declarations as [Hitem [_ [_ [_ Hfile]]]].
  split.
  - apply (Hitem MusicKit.MusicKit_Queue_d_ts); simpl; tauto.
  - apply Hfile. simpl. tauto.
Defined.

(** ** Consistency of the declarations *)

(** The names used but declared neither under [src/] nor by the library:
    [MediaItem], [Descriptor] and [PlayParameters].  [index.d.ts] references
    a file [MusicKit.MediaItem.d.ts] that is not among the files at hand. *)
Lemma unresolved_names :
  unresolved musickit = ["PlayParameters"; "MediaItem"; "Descriptor"].
Proof. vm_compute. reflexivity. Qed.

(** C2 fails on [LibraryAlbums]: it extends [Albums] and declares [type]
    again as the literal ["library-albums"], which is not assignable to the
    literal ["albums"] of [Albums], and [views] again as optional although
    [Albums] requires it.  [LibrarySongs] does the same with [type] against
    [Songs].  These are all the conflicts on literal and primitive types;
    [LibraryPlaylists], which extends [Resource] and not [Playlists], has
    none. *)
Theorem LibraryAlbums_conflicts_with_Albums :
  lookup musickit "LibraryAlbums" = Some MusicKit.LibraryAlbums /\
  bases MusicKit.LibraryAlbums = ["Albums"] /\
  bases MusicKit.LibraryPlaylists = ["Resource"] /\
  extension_conflicts musickit MusicKit.LibraryPlaylists = [] /\
  property_type musickit "LibraryAlbums" "type" = Some (TStrLit "library-albums") /\
  property_type musickit "Albums" "type" = Some (TStrLit "albums") /\
  assignable_in musickit (TStrLit "library-albums") (TStrLit "albums") = Some false /\
  extension_conflicts musickit MusicKit.LibraryAlbums =
    [("Albums", "type"); ("Albums", "views")] /\
  ill_extended musickit =
    [("LibraryAlbums", ("Albums", "type")); ("LibraryAlbums", ("Albums", "views"));
     ("LibrarySongs", ("Songs", "type"))] /\
  extensions_consistent musickit = false.
Proof. repeat split; vm_compute; reflexivity. Qed.

(** * Further properties of the declarations *)

Lemma forallb_In {A : Type} (p : A -> bool) (l : list A) (x : A) :
  forallb p l = true -> In x l -> p x = true.
Proof. intros H Hin. exact (proj1 (forallb_forall p l) H x Hin). Qed.

Lemma lookup_In (E : env) (n : string) (d : decl) : lookup E n = Some d -> In d E.
Proof. unfold lookup. intros H. exact (proj1 (find_some _ _ H)). Qed.

Lemma occurs_sound (d : decl) (k : relation_kind) (n : string) :
  occurs d k n = true -> In (k, n) (occs_decl d).
Proof.
  unfold occurs. intros H.
  apply existsb_exists in H as [[k' n'] [Hin Heq]].
  apply andb_true_iff in Heq as [Hk Hn]. cbn [fst snd] in Hk, Hn.
  apply relation_kind_eqb_eq in Hk. apply String.eqb_eq in Hn.
  subst. exact Hin.
Qed.

Lemma find_member_key (k : string) (ms : list member) (m : member) :
  find_member k ms = Some m -> In k (keys ms) /\ In m ms /\ member_name m = Some k.
Proof.
  unfold find_member. intros H.
  apply find_some in H as [Hin Hk].
  apply has_name_spec in Hk.
  split; [|split; assumption].
  unfold keys. apply in_flat_map. exists m. split; [exact Hin|].
  rewrite Hk. left. reflexivity.
Qed.

Lemma property_type_key (E : env) (i p : string) (t : ty) :
  property_type E i p = Some t -> In p (keys (members E i)).
Proof.
  unfold property_type. intros H.
  destruct (find_member p (members E i)) as [m|] eqn:Hf; [|discriminate H].
  exact (proj1 (find_member_key _ _ _ Hf)).
Qed.

Lemma distinct_NoDup (l : list string) : distinct l = true -> NoDup l.
Proof.
  unfold distinct. intros H.
  destruct (list_eq_dec string_dec (nodup string_dec l) l) as [Heq|]; [|discriminate H].
  rewrite <- Heq. apply NoDup_nodup.
Qed.

Lemma is_bound_In (l : list string) (n : string) : is_bound l n = true <-> In n l.
Proof.
  unfold is_bound. rewrite existsb_exists. split.
  - intros [m [Hin Heq]]. apply String.eqb_eq in Heq. subst. exact Hin.
  - intros Hin. exists n. split; [exact Hin | apply String.eqb_refl].
Qed.

(** ** The resource hierarchy *)

(** X1. Every interface that extends [BaseResource], directly or through
    [Resource], [Albums] or [Songs], has the properties [id], [type], [href]
    and [attributes], all required, and its [id] and [type] have types
    assignable to [string]. *)
Theorem resources_have_base_fields (d : decl) :
  In d musickit ->
  descends musickit (decl_name d) "BaseResource" = true ->
  (forall p, In p base_fields -> required_property musickit (decl_name d) p = true) /\
  string_typed musickit (decl_name d) "id" = true /\
  string_typed musickit (decl_name d) "type" = true.
Proof.
  intros Hin Hdesc.
  assert (H : forallb
                (fun d =>
                   implb (descends musickit (decl_name d) "BaseResource")
                     (forallb (required_property musickit (decl_name d)) base_fields
                      && string_typed musickit (decl_name d) "id"
                      && string_typed musickit (decl_name d) "type"))
                musickit = true) by (vm_compute; reflexivity).
  pose proof (forallb_In _ _ d H Hin) as Hd. cbv beta in Hd.
  rewrite Hdesc in Hd. cbn [implb] in Hd.
  apply andb_true_iff in Hd as [Hd Htype].
  apply andb_true_iff in Hd as [Hfields Hid].
  split; [|split; assumption].
  intros p Hp. exact (forallb_In _ _ p Hfields Hp).
Qed.

Lemma resources_have_base_fields_witness :
  required_property musickit "LibrarySongs" "href" = true /\
  string_typed musickit "LibrarySongs" "id" = true.
Proof.
  assert (Hin : In MusicKit.LibrarySongs musickit)
    by (apply (lookup_In musickit "LibrarySongs"); vm_compute; reflexivity).
  assert (Hd : descends musickit (decl_name MusicKit.LibrarySongs) "BaseResource" = true)
    by (vm_compute; reflexivity).
  destruct (resources_have_base_fields MusicKit.LibrarySongs Hin Hd) as [Hf [Hid _]].
  split; [|exact Hid].
  apply (Hf "href"). simpl. tauto.
Defined.

(** X2. The hierarchy has two roots.  An interface with an [extends]
    clause names interfaces of the namespace there, and it either descends
    from [BaseResource] or is [MusicKitInstance], which extends [Player]; no
    chain of [extends] is longer than three. *)
Theorem hierarchy_roots (d : decl) :
  In d musickit ->
  bases d <> [] ->
  (forall b, In b (bases d) -> is_interface musickit b = true) /\
  (descends musickit (decl_name d) "BaseResource" = true \/
   (decl_name d = "MusicKitInstance" /\ bases d = ["Player"])) /\
  depth musickit (decl_name d) <= 3.
Proof.
  intros Hin Hb.
  assert (H : forallb
                (fun d =>
                   match bases d with
                   | [] => true
                   | _ :: _ =>
                       forallb (is_interface musickit) (bases d)
                       && (descends musickit (decl_name d) "BaseResource"
                           || ((decl_name d =? "MusicKitInstance")
                               && distinct (bases d)
                               && forallb (String.eqb "Player") (bases d)
                               && Nat.eqb (length (bases d)) 1))
                       && Nat.leb (depth musickit (decl_name d)) 3
                   end)
                musickit = true) by (vm_compute; reflexivity).
  pose proof (forallb_In _ _ d H Hin) as Hd. cbv beta in Hd.
  destruct (bases d) as [|b bs] eqn:Hbs; [contradiction Hb; reflexivity|].
  apply andb_true_iff in Hd as [Hd Hdepth].
  apply andb_true_iff in Hd as [Hifs Hroot].
  split; [intros b' Hb'; exact (forallb_In _ _ b' Hifs Hb')|].
  split; [|apply Nat.leb_le; exact Hdepth].
  apply orb_true_iff in Hroot as [Hroot | Hroot]; [left; exact Hroot|].
  right.
  apply andb_true_iff in Hroot as [Hroot Hlen].
  apply andb_true_iff in Hroot as [Hroot Hall].
  apply andb_true_iff in Hroot as [Hname _].
  apply String.eqb_eq in Hname. split; [exact Hname|].
  destruct bs as [|b' bs]; [|discriminate Hlen].
  cbn [forallb] in Hall. apply andb_true_iff in Hall as [Hp _].
  apply String.eqb_eq in Hp. subst b. reflexivity.
Qed.

Lemma hierarchy_roots_witness :
  is_interface musickit "Albums" = true /\ depth musickit "LibraryAlbums" <= 3.
Proof.
  assert (Hin : In MusicKit.LibraryAlbums musickit)
    by (apply (lookup_In musickit "LibraryAlbums"); vm_compute; reflexivity).
  assert (Hb : bases MusicKit.LibraryAlbums <> []) by (simpl; discriminate).
  destruct (hierarchy_roots MusicKit.LibraryAlbums Hin Hb) as [Hi [_ Hd]].
  split; [|exact Hd].
  apply (Hi "Albums"). simpl. tauto.
Defined.

(** ** Discriminants *)






Lemma resource_of_key_key (k i : string) :
  resource_of_key musickit k = Some i -> In k (keys (members musickit "ResourceMap")).
Proof.
  unfold resource_of_key. intros H.
  destruct (property_type musickit "ResourceMap" k) as [t|] eqn:Ht; [|discriminate H].
  exact (property_type_key _ _ _ _ Ht).
Qed.

(** X4. A key of [ResourceMap] that is mapped to a resource interface is a
    literal of that interface's [type], with two exceptions:
    [library-artists] is mapped to [Artists], whose [type] is ["artists"],
    and [credits] to [Credit], whose [type] is ["role-categories"]. *)
Theorem ResourceMap_keys_and_discriminants (k i : string) :
  resource_of_key musickit k = Some i ->
  (In k (discriminants musickit i) <-> k <> "library-artists" /\ k <> "credits").
Proof.
  intros H.
  pose proof (resource_of_key_key k i H) as Hk.
  vm_compute in Hk.
  in_cases Hk; vm_compute in H; try discriminate H; injection H as <-;
    (split;
     [ intros _; split; discriminate
     | intros _; vm_compute; auto ])
    || (split;
        [ intros Hin; vm_compute in Hin; exfalso;
          repeat (destruct Hin as [Hin | Hin]; [discriminate Hin|]); exact Hin
        | intros [H1 H2]; exfalso; first [apply H1; reflexivity | apply H2; reflexivity] ]).
Qed.

Lemma ResourceMap_keys_and_discriminants_witness :
  In "library-playlist-folders" (discriminants musickit "LibraryPlaylists") /\
  ~ In "credits" (discriminants musickit "Credit").
Proof.
  split.
  - apply (ResourceMap_keys_and_discriminants "library-playlist-folders" "LibraryPlaylists").
    + vm_compute. reflexivity.
    + split; discriminate.
  - intros Hin.
    apply (ResourceMap_keys_and_discriminants "credits" "Credit") in Hin.
    + destruct Hin as [_ Hc]. apply Hc. reflexivity.
    + vm_compute. reflexivity.
Defined.

(** ** [MusicKitInstance] and [Player] *)

(** X5. [MusicKitInstance] has every member of [Player].  Each property of
    [Player] has in [MusicKitInstance] the same type or a type assignable to
    it ([bitrate] is narrowed from [number] to [PlaybackBitrate],
    [playbackTargetAvailable] from [boolean | undefined] to [boolean]), and
    what [Player] lets write, [MusicKitInstance] lets write. *)
Theorem MusicKitInstance_refines_Player :
  (forall k, In k (keys (members musickit "Player")) ->
             In k (keys (members musickit "MusicKitInstance"))) /\
  (forall p t,
      property_type musickit "Player" p = Some t ->
      exists t',
        property_type musickit "MusicKitInstance" p = Some t' /\
        (t' = t \/ assignable_in musickit t' t = Some true)) /\
  (forall p,
      is_readonly musickit "Player" p = Some false ->
      is_readonly musickit "MusicKitInstance" p = Some false) /\
  extension_conflicts musickit MusicKit.MusicKitInstance = [].
Proof.
  split.
  { intros k Hk.
    assert (H : forallb (is_bound (keys (members musickit "MusicKitInstance")))
                  (keys (members musickit "Player")) = true) by (vm_compute; reflexivity).
    apply is_bound_In. exact (forallb_In _ _ k H Hk). }
  split.
  { intros p t Ht.
    pose proof (property_type_key _ _ _ _ Ht) as Hk.
    vm_compute in Hk.
    in_cases Hk; vm_compute in Ht; try discriminate Ht; injection Ht as <-;
      eexists; (split; [vm_compute; reflexivity|]);
      first [left; reflexivity | right; vm_compute; reflexivity]. }
  split.
  { intros p Hp.
    assert (Hk : In p (keys (members musickit "Player"))).
    { unfold is_readonly in Hp.
      destruct (find_member p (members musickit "Player")) as [m|] eqn:Hf;
        [|discriminate Hp].
      exact (proj1 (find_member_key _ _ _ Hf)). }
    vm_compute in Hk.
    in_cases Hk; vm_compute in Hp; try discriminate Hp; vm_compute; reflexivity. }
  vm_compute. reflexivity.
Qed.

Lemma MusicKitInstance_refines_Player_witness :
  In "mute" (keys (members musickit "MusicKitInstance")) /\
  (exists t',
      property_type musickit "MusicKitInstance" "bitrate" = Some t' /\
      (t' = TNumber \/ assignable_in musickit t' TNumber = Some true)) /\
  is_readonly musickit "MusicKitInstance" "volume" = Some false.
Proof.
  destruct MusicKitInstance_refines_Player as [Hk [Hp [Hw _]]].
  split; [apply Hk; vm_compute; tauto|].
  split; [apply Hp; vm_compute; reflexivity|].
  apply Hw. vm_compute. reflexivity.
Defined.

(** ** Mapped types over a union of literals and over [keyof] *)

Lemma find_member_fresh (x : string) (opt : bool) (body : ty) (k : string)
    (ks : list string) :
  In k ks ->
  find_member k (map (fun k' => MProp false k' opt (subst x (TStrLit k') body)) ks) =
  Some (MProp false k opt (subst x (TStrLit k) body)).
Proof.
  unfold find_member. induction ks as [|k' ks IH]; simpl; intros Hin.
  - contradiction.
  - unfold has_name at 1. simpl.
    destruct (String.eqb_spec k' k) as [-> | Hne]; [reflexivity|].
    destruct Hin as [Heq | Hin]; [contradiction (Hne Heq)|].
    exact (IH Hin).
Qed.

Lemma keys_fresh (x : string) (opt : bool) (body : ty) (ks : list string) :
  keys (map (fun k' => MProp false k' opt (subst x (TStrLit k') body)) ks) = ks.
Proof.
  unfold keys. induction ks as [|k ks IH]; simpl; [reflexivity|].
  rewrite IH. reflexivity.
Qed.

Lemma EditorialArtwork_shape :
  shape musickit "EditorialArtwork" =
  option_map (map (fun k => MProp false k false (subst "key" (TStrLit k) (Named "Artwork"))))
    (literal_keys (length musickit) musickit (Named "EditorialArtworkTypes")).
Proof. vm_compute. reflexivity. Qed.

Lemma EditorialVideo_shape :
  shape musickit "EditorialVideo" =
  option_map (map (fun k => MProp false k false (subst "key" (TStrLit k) (Named "Video"))))
    (literal_keys (length musickit) musickit (Named "EditorialVideoTypes")).
Proof. vm_compute. reflexivity. Qed.

(** X6. [EditorialArtwork] has one property for each literal of
    [EditorialArtworkTypes] and no other, each required and of type
    [Artwork]; [EditorialVideo] likewise over [EditorialVideoTypes] with
    [Video]. *)
Theorem Editorial_shapes :
  (exists ks ms,
      literal_keys (length musickit) musickit (Named "EditorialArtworkTypes") = Some ks /\
      shape musickit "EditorialArtwork" = Some ms /\
      keys ms = ks /\ length ks = 8 /\ NoDup ks /\
      forall k, In k ks -> find_member k ms = Some (prop k (Named "Artwork"))) /\
  (exists ks ms,
      literal_keys (length musickit) musickit (Named "EditorialVideoTypes") = Some ks /\
      shape musickit "EditorialVideo" = Some ms /\
      keys ms = ks /\ length ks = 5 /\ NoDup ks /\
      forall k, In k ks -> find_member k ms = Some (prop k (Named "Video"))).
Proof.
  split.
  - destruct (literal_keys (length musickit) musickit (Named "EditorialArtworkTypes"))
      as [ks|] eqn:Hks; [|vm_compute in Hks; discriminate Hks].
    exists ks. eexists. split; [reflexivity|].
    split; [rewrite EditorialArtwork_shape, Hks; reflexivity|].
    split; [apply keys_fresh|].
    assert (Hd : length ks = 8 /\ distinct ks = true)
      by (vm_compute in Hks; injection Hks as <-; split; reflexivity).
    split; [exact (proj1 Hd)|]. split; [exact (distinct_NoDup _ (proj2 Hd))|].
    intros k Hk. exact (find_member_fresh "key" false (Named "Artwork") k ks Hk).
  - destruct (literal_keys (length musickit) musickit (Named "EditorialVideoTypes"))
      as [ks|] eqn:Hks; [|vm_compute in Hks; discriminate Hks].
    exists ks. eexists. split; [reflexivity|].
    split; [rewrite EditorialVideo_shape, Hks; reflexivity|].
    split; [apply keys_fresh|].
    assert (Hd : length ks = 5 /\ distinct ks = true)
      by (vm_compute in Hks; injection Hks as <-; split; reflexivity).
    split; [exact (proj1 Hd)|]. split; [exact (distinct_NoDup _ (proj2 Hd))|].
    intros k Hk. exact (find_member_fresh "key" false (Named "Video") k ks Hk).
Qed.

Lemma Editorial_shapes_witness :
  exists ms,
    shape musickit "EditorialVideo" = Some ms /\
    find_member "motionDetailTall" ms = Some (prop "motionDetailTall" (Named "Video")).
Proof.
  destruct Editorial_shapes as [_ [ks [ms [Hks [Hms [_ [_ [_ H]]]]]]]].
  exists ms. split; [exact Hms|].
  apply H.
  vm_compute in Hks. injection Hks as <-. simpl. tauto.
Defined.

Lemma QueryResources_shape :
  shape musickit "QueryResources" =
  Some (map (mapped_member "K" true
               (TObj [MIndex "id" TString
                        (TIndexed (Named "MusicKit.ResourceMap") (Named "K"))]))
            (members musickit "ResourceMap")).
Proof. vm_compute. reflexivity. Qed.

(** X7. [Relationships], [QueryResources] and [ResourceTypes] range over
    the same keys, those of [ResourceMap]; [QueryResources] gives each key
    [K] an optional property whose type is a dictionary from [string] to
    [ResourceMap[K]]. *)
Theorem ResourceMap_key_sets_agree :
  exists rs qs,
    shape musickit "Relationships" = Some rs /\
    shape musickit "QueryResources" = Some qs /\
    keys rs = keys (members musickit "ResourceMap") /\
    keys qs = keys (members musickit "ResourceMap") /\
    literal_keys (length musickit) musickit (Named "ResourceTypes") =
      Some (keys (members musickit "ResourceMap")) /\
    forall K, In K (keys (members musickit "ResourceMap")) ->
      find_member K qs =
      Some (prop_opt K
              (TObj [MIndex "id" TString
                       (TIndexed (Named "MusicKit.ResourceMap") (TStrLit K))])).
Proof.
  eexists. eexists.
  split; [exact Relationships_shape|].
  split; [exact QueryResources_shape|].
  split; [apply keys_mapped|].
  split; [apply keys_mapped|].
  split; [vm_compute; reflexivity|].
  intros K HK.
  destruct (in_keys_find K _ HK) as [m [Hf [Hi Hn]]].
  rewrite find_member_mapped, Hf. simpl.
  pose proof (forallb_In _ _ m ResourceMap_plain Hi) as Hp.
  destruct (plain_property_shape m Hp) as [n [o [t ->]]].
  simpl in Hn. injection Hn as ->.
  simpl. rewrite orb_true_r. reflexivity.
Qed.

Lemma ResourceMap_key_sets_agree_witness :
  exists qs,
    shape musickit "QueryResources" = Some qs /\
    find_member "albums" qs =
    Some (prop_opt "albums"
            (TObj [MIndex "id" TString
                     (TIndexed (Named "MusicKit.ResourceMap") (TStrLit "albums"))])).
Proof.
  destruct ResourceMap_key_sets_agree as [rs [qs [_ [Hq [_ [_ [_ H]]]]]]].
  exists qs. split; [exact Hq|].
  apply H. vm_compute. tauto.
Defined.

(** ** Well-formed member and parameter lists *)

(** X8. No interface and no object type, at any depth of any declaration,
    declares a member name twice, and no class or enum has two members of
    the same name. *)
Theorem member_names_distinct (d : decl) :
  In d musickit ->
  (forall ms, In ms (member_lists d) -> NoDup (keys ms)) /\ NoDup (inner_names d).
Proof.
  intros Hin.
  assert (H : forallb
                (fun d =>
                   forallb (fun ms => distinct (keys ms)) (member_lists d)
                   && distinct (inner_names d))
                musickit = true) by (vm_compute; reflexivity).
  pose proof (forallb_In _ _ d H Hin) as Hd. cbv beta in Hd.
  apply andb_true_iff in Hd as [Hms Hinner].
  split; [|exact (distinct_NoDup _ Hinner)].
  intros ms Hm. apply distinct_NoDup. exact (forallb_In _ _ ms Hms Hm).
Qed.

Lemma member_names_distinct_witness :
  NoDup (inner_names MusicKit.MKError) /\
  NoDup (keys [prop "chunkSize" TNumber; prop "hashes" (TArray TString)]).
Proof.
  split.
  - apply (member_names_distinct MusicKit.MKError).
    apply (lookup_In musickit "MKError"). vm_compute. reflexivity.
  - apply (member_names_distinct MusicKit.MediaItemAsset).
    + apply (lookup_In musickit "MediaItemAsset"). vm_compute. reflexivity.
    + simpl. tauto.
Defined.

Lemma required_first_split (ps : list param) :
  required_first ps = true ->
  exists req opt,
    ps = req ++ opt /\
    Forall (fun p => param_optional p = false) req /\
    Forall (fun p => param_optional p = true) opt.
Proof.
  induction ps as [|p ps IH]; simpl; intros H.
  - exists [], []. repeat split; constructor.
  - destruct (param_optional p) eqn:Hp.
    + exists [], (p :: ps). split; [reflexivity|]. split; [constructor|].
      constructor; [exact Hp|].
      apply Forall_forall. intros q Hq. exact (forallb_In _ _ q H Hq).
    + destruct (IH H) as [req [opt [-> [Hr Ho]]]].
      exists (p :: req), opt. split; [reflexivity|].
      split; [constructor; assumption | exact Ho].
Qed.

(** X9. In every parameter list, of a function, of a method or of a
    function type, the required parameters come first and the optional ones
    after them. *)
Theorem optional_parameters_last (d : decl) (ps : list param) :
  In d musickit -> In ps (param_lists d) ->
  exists req opt,
    ps = req ++ opt /\
    Forall (fun p => param_optional p = false) req /\
    Forall (fun p => param_optional p = true) opt.
Proof.
  intros Hin Hps.
  assert (H : forallb (fun d => forallb required_first (param_lists d)) musickit = true)
    by (vm_compute; reflexivity).
  apply required_first_split.
  exact (forallb_In _ _ ps (forallb_In _ _ d H Hin) Hps).
Qed.

Lemma optional_parameters_last_witness :
  exists req opt,
    [Param "artwork" false (Named "Artwork"); Param "height" true TNumber;
     Param "width" true TNumber] = req ++ opt /\
    Forall (fun p => param_optional p = false) req /\
    Forall (fun p => param_optional p = true) opt.
Proof.
  apply (optional_parameters_last MusicKit.formatArtworkURL).
  - apply (lookup_In musickit "formatArtworkURL"). vm_compute. reflexivity.
  - simpl. tauto.
Defined.

(** ** Names and type arguments *)

(** X10. Every type name a declaration uses is declared in the namespace,
    is one of the library's, or is one of [MediaItem], [Descriptor] and
    [PlayParameters], and these three are each in use. *)
Theorem names_resolve :
  (forall d k n,
      In d musickit -> In (k, n) (occs_decl d) ->
      declared musickit n = true \/ In n lib_types \/
      In (unqualify "MusicKit" n) absent_names) /\
  (forall n, In n absent_names ->
             declared musickit n = false /\
             exists d k, In d musickit /\ In (k, n) (occs_decl d)).
Proof.
  split.
  - intros d k n Hin Ho.
    assert (H : forallb (fun d => forallb (fun o => resolves musickit (snd o)) (occs_decl d))
                  musickit = true) by (vm_compute; reflexivity).
    pose proof (forallb_In _ _ (k, n) (forallb_In _ _ d H Hin) Ho) as Hr.
    unfold resolves in Hr. cbn [snd] in Hr.
    apply orb_true_iff in Hr as [Hr | Hr]; [|right; right; apply is_bound_In; exact Hr].
    apply orb_true_iff in Hr as [Hr | Hr]; [left; exact Hr|].
    right. left. apply is_bound_In. exact Hr.
  - intros n Hn. unfold absent_names in Hn. simpl in Hn.
    destruct Hn as [<- | [<- | [<- | []]]]; (split; [vm_compute; reflexivity|]).
    + exists MusicKit.Songs, RReference.
      split; [apply (lookup_In musickit "Songs") | apply occurs_sound];
        vm_compute; reflexivity.
    + exists MusicKit.Queue, RReference.
      split; [apply (lookup_In musickit "Queue") | apply occurs_sound];
        vm_compute; reflexivity.
    + exists MusicKit.SetQueueOptions, RUnion.
      split; [apply (lookup_In musickit "SetQueueOptions") | apply occurs_sound];
        vm_compute; reflexivity.
Qed.

Lemma names_resolve_witness :
  declared musickit "Logger" = true \/ In "Logger" lib_types \/
  In (unqualify "MusicKit" "Logger") absent_names.
Proof.
  destruct names_resolve as [H _].
  apply (H MusicKit.__log RReference "Logger").
  - apply (lookup_In musickit "__log"). vm_compute. reflexivity.
  - apply occurs_sound. vm_compute. reflexivity.
Defined.

(** X11. Every reference to a generic gives it as many type arguments as
    it takes: one to [Relationship], [View], [SearchResult], [Array] and
    [Promise], two to [Record], none or one to [QueryResponse], whose
    parameter has a default, and none to any other name. *)
Theorem type_arguments_match (d : decl) (n : string) (k : nat) :
  In d musickit -> In (n, k) (applications d) ->
  match arity musickit n with
  | Some (lo, hi) => lo <= k <= hi
  | None => In (unqualify "MusicKit" n) absent_names /\ k = 0
  end.
Proof.
  intros Hin Ha.
  assert (H : forallb (fun d => forallb (arity_respected musickit) (applications d))
                musickit = true) by (vm_compute; reflexivity).
  pose proof (forallb_In _ _ (n, k) (forallb_In _ _ d H Hin) Ha) as Hr.
  unfold arity_respected in Hr. cbn [fst snd] in Hr.
  destruct (arity musickit n) as [[lo hi]|].
  - apply andb_true_iff in Hr as [Hlo Hhi].
    apply Nat.leb_le in Hlo, Hhi. split; assumption.
  - apply andb_true_iff in Hr as [Hn Hk].
    split; [apply is_bound_In; exact Hn | apply Nat.eqb_eq; exact Hk].
Qed.

Lemma type_arguments_match_witness :
  arity musickit "QueryResponse" = Some (0, 1) /\ 0 <= 1 <= 1.
Proof.
  split; [vm_compute; reflexivity|].
  pose proof (type_arguments_match MusicKit.API "QueryResponse" 1) as H.
  replace (arity musickit "QueryResponse") with (Some (0, 1)) in H
    by (vm_compute; reflexivity).
  apply H.
  - apply (lookup_In musickit "API"). vm_compute. reflexivity.
  - unfold applications, MusicKit.API. simpl. tauto.
Defined.

(** ** Calls *)

(** X12. The [route] of [API.music] has the type [T | string]: every
    string literal and [string] itself are accepted, whether the route is a
    key of [v3MusicRoutes] or not.  The data of the response has the type
    [v3MusicRoutes[T] | any], to which every primitive and literal type is
    assignable. *)
Theorem music_route_unrestricted :
  exists route data,
    param_type musickit "API" "music" "route" = Some route /\
    method_signature musickit "API" "music" =
      Some ([Param "route" false route;
             Param "parameters" true (Named "QueryParameters");
             Param "options" true (Named "QueryOptions")],
            TRef "Promise" [TRef "QueryResponse" [data]]) /\
    (forall s : string, assignable_in musickit (TStrLit s) route = Some true) /\
    assignable_in musickit TString route = Some true /\
    (forall s : ty, is_basic s = true -> assignable_in musickit s data = Some true).
Proof.
  exists (TUnion [Named "T"; TString]).
  exists (TUnion [TIndexed (Named "v3MusicRoutes") (Named "T"); TAny]).
  split; [vm_compute; reflexivity|].
  split; [vm_compute; reflexivity|].
  split; [intros s; vm_compute; reflexivity|].
  split; [vm_compute; reflexivity|].
  intros s Hs. destruct s; try discriminate Hs; vm_compute; reflexivity.
Qed.

Lemma music_route_unrestricted_witness :
  exists data,
    method_signature musickit "API" "music" =
      Some ([Param "route" false (TUnion [Named "T"; TString]);
             Param "parameters" true (Named "QueryParameters");
             Param "options" true (Named "QueryOptions")],
            TRef "Promise" [TRef "QueryResponse" [data]]) /\
    assignable_in musickit (TNumLit 7) data = Some true.
Proof.
  destruct music_route_unrestricted as [route [data [Hr [Hm [_ [_ Hd]]]]]].
  exists data.
  assert (Hroute : route = TUnion [Named "T"; TString]).
  { vm_compute in Hr. injection Hr as <-. reflexivity. }
  subst route. split; [exact Hm|].
  apply Hd. reflexivity.
Defined.

Lemma all_optional_nothing_missing (E : env) (i : string) (given : list string) :
  forallb optional_property (members E i) = true -> missing_required E i given = [].
Proof.
  unfold missing_required.
  induction (members E i) as [|m ms IH]; simpl; intros H.
  - reflexivity.
  - apply andb_true_iff in H as [Hm Hms].
    rewrite (IH Hms).
    destruct m as [ro n [|] t | |]; simpl in Hm; solve [reflexivity | discriminate Hm].
Qed.

(** X13. [AppConfiguration], [Configuration] and [SetQueueOptions] have no
    required property: an object literal with any properties, none
    included, leaves nothing out, and each property is optional with a
    declared type that includes [undefined].  [EmbedOptions] requires
    both [height] and [width]. *)
Theorem option_bags_require_nothing :
  (forall n given, In n option_bags -> missing_required musickit n given = []) /\
  (forall n m, In n option_bags -> In m (members musickit n) ->
               optional_with_undefined m = true) /\
  (forall given,
      missing_required musickit "EmbedOptions" given = [] <->
      In "height" given /\ In "width" given).
Proof.
  split.
  { intros n given Hn. apply all_optional_nothing_missing.
    unfold option_bags in Hn. simpl in Hn.
    destruct Hn as [<- | [<- | [<- | []]]]; vm_compute; reflexivity. }
  split.
  { intros n m Hn Hm.
    assert (H : forallb (fun n => forallb optional_with_undefined (members musickit n))
                  option_bags = true) by (vm_compute; reflexivity).
    exact (forallb_In _ _ m (forallb_In _ _ n H Hn) Hm). }
  intros given. unfold missing_required.
  replace (members musickit "EmbedOptions")
    with [prop "height" (TUnion [TNumber; TString]);
          prop "width" (TUnion [TNumber; TString])]
    by (vm_compute; reflexivity).
  cbn [flat_map app].
  rewrite <- !is_bound_In. unfold is_bound.
  destruct (existsb (String.eqb "height") given), (existsb (String.eqb "width") given);
    simpl; split; intros H; try discriminate H; try reflexivity;
    try (split; reflexivity); destruct H as [H1 H2]; discriminate.
Qed.

Lemma option_bags_require_nothing_witness :
  missing_required musickit "SetQueueOptions" ["song"] = [] /\
  missing_required musickit "EmbedOptions" ["width"; "height"] = [].
Proof.
  destruct option_bags_require_nothing as [Hbag [_ Hembed]].
  split.
  - apply Hbag. unfold option_bags. simpl. tauto.
  - apply Hembed. simpl. tauto.
Defined.

(** ** Events *)

Lemma payload_defined (k : string) :
  payload musickit k <> None <-> In k (keys (members musickit "Events")).
Proof.
  unfold payload, index_type. split.
  - intros H.
    destruct (find_member k (members musickit "Events")) as [m|] eqn:Hf;
      [|contradiction H; reflexivity].
    exact (proj1 (find_member_key _ _ _ Hf)).
  - intros Hin.
    destruct (in_keys_find k _ Hin) as [m [Hf _]].
    rewrite Hf. destruct m as [ro n [|] t | |]; discriminate.
Qed.

(** X14. [Events] has a payload exactly for its declared event names.  The
    payloads of [repeatModeDidChange] and [shuffleModeDidChange] are the
    types of [Player.repeatMode] and [Player.shuffleMode]: what a listener
    receives is what the field accepts, the literals 0, 1, 2 and 0, 1. *)
Theorem mode_events_match_player_fields :
  (forall k, payload musickit k <> None <-> In k (keys (members musickit "Events"))) /\
  payload musickit "repeatModeDidChange" = property_type musickit "Player" "repeatMode" /\
  payload musickit "shuffleModeDidChange" = property_type musickit "Player" "shuffleMode" /\
  (forall s t, payload musickit "repeatModeDidChange" = Some t ->
               assignable_in musickit s t = accepts musickit "Player" "repeatMode" s) /\
  (forall s t, payload musickit "shuffleModeDidChange" = Some t ->
               assignable_in musickit s t = accepts musickit "Player" "shuffleMode" s) /\
  (forall n t, payload musickit "repeatModeDidChange" = Some t ->
               assignable_in musickit (TNumLit n) t = Some (in_Z n [0; 1; 2]%Z)) /\
  (forall n t, payload musickit "shuffleModeDidChange" = Some t ->
               assignable_in musickit (TNumLit n) t = Some (in_Z n [0; 1]%Z)).
Proof.
  assert (Hr : payload musickit "repeatModeDidChange" =
               property_type musickit "Player" "repeatMode") by (vm_compute; reflexivity).
  assert (Hs : payload musickit "shuffleModeDidChange" =
               property_type musickit "Player" "shuffleMode") by (vm_compute; reflexivity).
  assert (Har : forall s t, payload musickit "repeatModeDidChange" = Some t ->
                  assignable_in musickit s t = accepts musickit "Player" "repeatMode" s).
  { intros s t Ht. unfold accepts. rewrite <- Hr, Ht. reflexivity. }
  assert (Has : forall s t, payload musickit "shuffleModeDidChange" = Some t ->
                  assignable_in musickit s t = accepts musickit "Player" "shuffleMode" s).
  { intros s t Ht. unfold accepts. rewrite <- Hs, Ht. reflexivity. }
  refine (conj payload_defined (conj Hr (conj Hs (conj Har (conj Has (conj _ _)))))).
  - intros n t Ht. rewrite (Har _ _ Ht).
    exact (accepts_basic_literal_alias musickit _ _ _ _ _ (TNumLit n) eq_refl
             Player_repeatMode_type PlayerRepeatMode_alias).
  - intros n t Ht. rewrite (Has _ _ Ht).
    exact (accepts_basic_literal_alias musickit _ _ _ _ _ (TNumLit n) eq_refl
             Player_shuffleMode_type PlayerShuffleMode_alias).
Qed.

Lemma mode_events_witness :
  assignable_in musickit (TNumLit 2) (Named "PlayerRepeatMode") = Some true /\
  assignable_in musickit (TNumLit 2) (Named "PlayerShuffleMode") = Some false.
Proof.
  destruct mode_events_match_player_fields as [_ [_ [_ [_ [_ [Hr Hs]]]]]].
  split.
  - apply (Hr 2%Z). vm_compute. reflexivity.
  - apply (Hs 2%Z). vm_compute. reflexivity.
Defined.

(** ** Enums without initialisers *)





(** ** Unions of string literals *)

Lemma assignable_basic_to_string_literals (fuel : nat) (E : env) (s : ty)
    (ls : list string) :
  is_basic s = true ->
  assignable (S (S fuel)) E s (TUnion (map TStrLit ls)) =
  Some (existsb (fun l => basic_assignable s (TStrLit l)) ls).
Proof.
  intros Hs.
  rewrite <- (some_yes_decided (fun l => basic_assignable s (TStrLit l)) ls).
  destruct s; try discriminate Hs; cbn [assignable]; rewrite map_map; reflexivity.
Qed.

Lemma assignable_in_string_union (E : env) (s : ty) (ls : list string) :
  is_basic s = true ->
  assignable_in E s (TUnion (map TStrLit ls)) =
  Some (existsb (fun l => basic_assignable s (TStrLit l)) ls).
Proof.
  intros Hs. unfold assignable_in.
  change (3 + length E) with (S (S (S (length E)))).
  exact (assignable_basic_to_string_literals (S (length E)) E s ls Hs).
Qed.

Lemma assignable_in_string_alias (E : env) (a a' : string) (s : ty) (ls : list string) :
  is_basic s = true ->
  lookup E a = Some (DAlias a' [] (TUnion (map TStrLit ls))) ->
  assignable_in E s (Named a) =
  Some (existsb (fun l => basic_assignable s (TStrLit l)) ls).
Proof.
  intros Hs Ha. unfold assignable_in.
  change (3 + length E) with (S (S (S (length E)))).
  rewrite <- (assignable_basic_to_string_literals (length E) E s ls Hs).
  destruct s; try discriminate Hs; cbn [assignable]; rewrite Ha; reflexivity.
Qed.

Lemma setLoggingLevels_level :
  param_type musickit "Logger" "setLoggingLevels" "level" =
  Some (TUnion (map TStrLit ["TRACE"; "DEBUG"; "INFO"; "WARN"; "ERROR"])).
Proof. vm_compute. reflexivity. Qed.

Lemma ContentRating_alias :
  lookup musickit "ContentRating" =
  Some (DAlias "ContentRating" [] (TUnion (map TStrLit ["clean"; "explicit"]))).
Proof. vm_compute. reflexivity. Qed.

(** X16. The [level] of [Logger.setLoggingLevels] accepts a string literal
    exactly when it is one of [TRACE], [DEBUG], [INFO], [WARN] and [ERROR],
    and a content rating exactly when it is [clean] or [explicit]; [string]
    itself is rejected by both. *)
Theorem string_literal_unions :
  (exists level,
      param_type musickit "Logger" "setLoggingLevels" "level" = Some level /\
      (forall s : string,
          assignable_in musickit (TStrLit s) level =
          Some (existsb (String.eqb s) ["TRACE"; "DEBUG"; "INFO"; "WARN"; "ERROR"])) /\
      assignable_in musickit TString level = Some false) /\
  (forall s : string,
      assignable_in musickit (TStrLit s) (Named "ContentRating") =
      Some (existsb (String.eqb s) ["clean"; "explicit"])) /\
  assignable_in musickit TString (Named "ContentRating") = Some false.
Proof.
  split.
  - eexists. split; [exact setLoggingLevels_level|]. split.
    + intros s. exact (assignable_in_string_union musickit (TStrLit s) _ eq_refl).
    + exact (assignable_in_string_union musickit TString _ eq_refl).
  - split.
    + intros s.
      exact (assignable_in_string_alias musickit _ _ (TStrLit s) _ eq_refl ContentRating_alias).
    + exact (assignable_in_string_alias musickit _ _ TString _ eq_refl ContentRating_alias).
Qed.

Lemma string_literal_unions_witness :
  assignable_in musickit (TStrLit "explicit") (Named "ContentRating") = Some true /\
  assignable_in musickit (TStrLit "mild") (Named "ContentRating") = Some false.
Proof.
  destruct string_literal_unions as [_ [Hc _]].
  split; [exact (Hc "explicit") | exact (Hc "mild")].
Defined.

(** ** Reference directives *)

(** X17. [index.d.ts] names nine paths, each once.  Every path that
    another file references is among them, and so is every file that lies
    beside [index.d.ts]. *)
Theorem index_references_cover :
  length (references MusicKit.index_d_ts) = 9 /\
  NoDup (references MusicKit.index_d_ts) /\
  (forall f p, In f repository -> In p (references f) ->
               In p (references MusicKit.index_d_ts)) /\
  (forall f p, In f repository -> sibling_path f = Some p ->
               p = "index.d.ts" \/ In p (references MusicKit.index_d_ts)).
Proof.
  split; [reflexivity|].
  split; [apply distinct_NoDup; vm_compute; reflexivity|].
  split.
  - intros f p Hf Hp.
    assert (H : forallb
                  (fun f => forallb (is_bound (references MusicKit.index_d_ts)) (references f))
                  repository = true) by (vm_compute; reflexivity).
    apply is_bound_In. exact (forallb_In _ _ p (forallb_In _ _ f H Hf) Hp).
  - intros f p Hf Hp.
    assert (H : forallb
                  (fun f =>
                     match sibling_path f with
                     | Some p => (p =? "index.d.ts")
                                 || is_bound (references MusicKit.index_d_ts) p
                     | None => true
                     end)
                  repository = true) by (vm_compute; reflexivity).
    pose proof (forallb_In _ _ f H Hf) as Hfp. cbv beta in Hfp.
    rewrite Hp in Hfp.
    apply orb_true_iff in Hfp as [Hi | Hr].
    + left. apply String.eqb_eq. exact Hi.
    + right. apply is_bound_In. exact Hr.
Qed.

Lemma index_references_cover_witness :
  In "MusicKit.Player.d.ts" (references MusicKit.index_d_ts) /\
  ("MusicKit.Queue.d.ts" = "index.d.ts" \/
   In "MusicKit.Queue.d.ts" (references MusicKit.index_d_ts)).
Proof.
  destruct index_references_cover as [_ [_ [Hr Hs]]].
  split.
  - apply (Hr MusicKit.MusicKit_API_d_ts); simpl; tauto.
  - apply (Hs MusicKit.MusicKit_Queue_d_ts); [simpl; tauto | vm_compute; reflexivity].
Defined.
